(** * A shallow embedding of the photo editor's event handlers

    The development follows [src/components/ImageEditor.tsx] (the editor
    component: crop geometry, rotation, pan/zoom, submission) and
    [src/services/geminiService.ts] (the outbound adapter).

    Conventions of the embedding.
    - A JavaScript [number] that carries a coordinate, a scale or a crop
      fraction is an exact rational ([Q]); rounding, infinities and NaN
      are outside the model.  Numbers that only ever hold integers
      (rotation in degrees, slider values, pixel sizes) are [Z].  What is
      proved about comparisons, clamps and the order of operations holds
      of the binary64 numbers of the source as well; an equation that
      needs arithmetic to be exact (a sum undone by a difference, a
      product undone by a quotient) holds of them up to rounding only.
      Module [Double] repeats the arithmetic of the crop move and of the
      wheel zoom in binary64, to show where rounding is visible.
    - React state is one record, [State]; every [setX] of the component is
      a field update.  The [imageFile] prop owned by the parent component
      is a field of the same record.
    - What the browser and the SDK decide (whether a canvas context can be
      had, how a filter is rasterised, what the service answers) is read
      from an environment record, [Env].
    - A promise is modelled by the way it settles, [Settled]. *)

From Stdlib Require Import QArith Qminmax ZArith String Ascii List Bool Lia Lqa.
From Stdlib Require Import Qround DecimalString PrimFloat.
Import ListNotations.

Open Scope string_scope.
Open Scope Z_scope.
Open Scope Q_scope.

(* ================================================================== *)
(** * Part I: definitions *)
(* ================================================================== *)

(** ** JavaScript strings *)

Module JS.

Open Scope string_scope.

(** [s.includes(sub)] *)
Definition includes (s sub : string) : bool :=
  match index 0 sub s with Some _ => true | None => false end.

(** [s.startsWith(p)] *)
Definition startsWith (s p : string) : bool := prefix p s.

(** White space and line terminators that [String.prototype.trim]
    strips, among the code units below 256: U+0009..U+000D, U+0020 and
    U+00A0. *)
Definition isWhiteSpace (c : ascii) : bool :=
  let n := nat_of_ascii c in
  (((9 <=? n) && (n <=? 13)) || (n =? 32) || (n =? 160))%nat.

Fixpoint trimStart (s : string) : string :=
  match s with
  | EmptyString => EmptyString
  | String c s' => if isWhiteSpace c then trimStart s' else s
  end.

Fixpoint trimEnd (s : string) : string :=
  match s with
  | EmptyString => EmptyString
  | String c s' =>
      match trimEnd s' with
      | EmptyString => if isWhiteSpace c then EmptyString else String c EmptyString
      | t => String c t
      end
  end.

(** [s.trim()] *)
Definition trim (s : string) : string := trimEnd (trimStart s).

(** A string is truthy when it is not empty. *)
Definition truthy (s : string) : bool :=
  match s with EmptyString => false | String _ _ => true end.

(** Every character of the string is white space (the empty string
    included). *)
Fixpoint whitespaceOnly (s : string) : bool :=
  match s with
  | EmptyString => true
  | String c s' => isWhiteSpace c && whitespaceOnly s'
  end.

(** [s.split(sep)] for a one-character separator. *)
Fixpoint split (sep : ascii) (s : string) : list string :=
  match s with
  | EmptyString => [EmptyString]
  | String c s' =>
      if Ascii.eqb c sep then EmptyString :: split sep s'
      else match split sep s' with
           | [] => [String c EmptyString]
           | p :: ps => String c p :: ps
           end
  end.

Definition digitValue (c : ascii) : option Z :=
  let n := nat_of_ascii c in
  if ((48 <=? n) && (n <=? 57))%nat then Some (Z.of_nat (n - 48)) else None.

Fixpoint digits (acc : Z) (s : string) : option Z :=
  match s with
  | EmptyString => Some acc
  | String c s' =>
      match digitValue c with
      | Some d => digits (10 * acc + d)%Z s'
      | None => None
      end
  end.

(** [Number(s)] on a non-empty string of decimal digits, the only form
    the editor feeds it; [None] stands for every other argument
    ([undefined] included). *)
Definition Number (s : option string) : option Z :=
  match s with
  | Some (String c s') => digits 0 (String c s')
  | _ => None
  end.

(** [[a, b, c].filter(keep).join(sep)] *)
Fixpoint join (sep : string) (l : list string) : string :=
  match l with
  | [] => ""
  | [s] => s
  | s :: rest => s ++ sep ++ join sep rest
  end.

(** The decimal rendering of an integer-valued number in a template
    literal. *)
Definition toString (z : Z) : string := NilZero.string_of_int (Z.to_int z).

End JS.

(** ** Numbers *)

(** [a < b] on numbers, as a boolean. *)
Definition Qltb (a b : Q) : bool := negb (Qle_bool b a).

(** Rounding towards zero. *)
Definition truncate (q : Q) : Z :=
  if Qltb q 0 then Qceiling q else Qfloor q.

(** Conversion of a number to a Web IDL [unsigned long], as done when a
    canvas dimension is assigned: truncate towards zero, then reduce
    modulo 2^32. *)
Definition toUnsignedLong (q : Q) : Z := (truncate q mod 2 ^ 32)%Z.

(** The number is an integer. *)
Definition isInteger (q : Q) : bool := Qeq_bool (inject_Z (Qfloor q)) q.

(** ** Crop rectangles and crop interactions *)

(** [{ x, y, width, height }], relative to the image dimensions. *)
Record Crop := mkCrop {
  crop_x : Q;
  crop_y : Q;
  crop_width : Q;
  crop_height : Q
}.

(** [CropInteraction['type']] *)
Inductive CropType :=
| move
| resize_tl | resize_t | resize_tr | resize_r
| resize_br | resize_b | resize_bl | resize_l.

(** The string each member of the union type is at run time. *)
Definition typeName (t : CropType) : string :=
  match t with
  | move => "move"
  | resize_tl => "resize-tl"
  | resize_t => "resize-t"
  | resize_tr => "resize-tr"
  | resize_r => "resize-r"
  | resize_br => "resize-br"
  | resize_b => "resize-b"
  | resize_bl => "resize-bl"
  | resize_l => "resize-l"
  end.

Record CropInteraction := mkInteraction {
  ci_type : CropType;
  startX : Q;
  startY : Q;
  startCrop : Crop
}.

(** The aspect-ratio state.  [setAspectRatio] is only ever called with a
    member of [aspectRatios], so the state is one of four labels. *)
Inductive AspectRatio := Free | Ratio_1_1 | Ratio_16_9 | Ratio_4_3.

Definition aspectLabel (a : AspectRatio) : string :=
  match a with
  | Free => "Free"
  | Ratio_1_1 => "1:1"
  | Ratio_16_9 => "16:9"
  | Ratio_4_3 => "4:3"
  end.

Definition aspectRatios : list AspectRatio :=
  [Free; Ratio_1_1; Ratio_16_9; Ratio_4_3].

(** [const ratioParts = aspectRatio.split(':');
     const ratio = Number(ratioParts[0]) / Number(ratioParts[1]);] *)
Definition parseRatio (label : string) : option Q :=
  let ratioParts := JS.split ":" label in
  match JS.Number (nth_error ratioParts 0), JS.Number (nth_error ratioParts 1) with
  | Some n, Some d => Some (inject_Z n / inject_Z d)
  | _, _ => None
  end.

Definition minSize : Q := 0.05.

(** The ratio each fixed label stands for. *)
Definition targetRatio (a : AspectRatio) : Q :=
  match a with
  | Free => 0
  | Ratio_1_1 => 1
  | Ratio_16_9 => 16 # 9
  | Ratio_4_3 => 4 # 3
  end.

(** The resize branch of [handleCropMouseMove] (the body of
    [if (cropInteraction.type.startsWith('resize-'))]). *)
Definition resizeCrop (type : CropType) (startCrop : Crop)
    (aspectRatio : AspectRatio) (dx dy : Q) : Crop :=
  let t := typeName type in
  let x := crop_x startCrop in
  let y := crop_y startCrop in
  let width := crop_width startCrop in
  let height := crop_height startCrop in
  let '(width, x) :=
    if JS.includes t "l" then (width - dx, x + dx) else (width, x) in
  let width := if JS.includes t "r" then width + dx else width in
  let '(height, y) :=
    if JS.includes t "t" then (height - dy, y + dy) else (height, y) in
  let height := if JS.includes t "b" then height + dy else height in
  (* Prevent inversion *)
  let '(width, x) :=
    if Qltb width minSize
    then (minSize,
          if JS.includes t "l"
          then crop_x startCrop + crop_width startCrop - minSize
          else crop_x startCrop)
    else (width, x) in
  let '(height, y) :=
    if Qltb height minSize
    then (minSize,
          if JS.includes t "t"
          then crop_y startCrop + crop_height startCrop - minSize
          else crop_y startCrop)
    else (height, y) in
  let newCrop := mkCrop x y width height in
  (* Enforce aspect ratio *)
  if negb (String.eqb (aspectLabel aspectRatio) "Free") then
    match parseRatio (aspectLabel aspectRatio) with
    | None => newCrop
    | Some ratio =>
        let newCrop :=
          if JS.includes t "l" || JS.includes t "r"
          then mkCrop (crop_x newCrop) (crop_y newCrop)
                      (crop_width newCrop) (crop_width newCrop / ratio)
          else mkCrop (crop_x newCrop) (crop_y newCrop)
                      (crop_height newCrop * ratio) (crop_height newCrop) in
        let newCrop :=
          if JS.includes t "t"
          then mkCrop (crop_x newCrop)
                      (crop_y startCrop + crop_height startCrop - crop_height newCrop)
                      (crop_width newCrop) (crop_height newCrop)
          else newCrop in
        if JS.includes t "l"
        then mkCrop (crop_x startCrop + crop_width startCrop - crop_width newCrop)
                    (crop_y newCrop) (crop_width newCrop) (crop_height newCrop)
        else newCrop
    end
  else newCrop.

(** The move branch ([else if (cropInteraction.type === 'move')]). *)
Definition moveCrop (startCrop : Crop) (dx dy : Q) : Crop :=
  mkCrop (crop_x startCrop + dx) (crop_y startCrop + dy)
         (crop_width startCrop) (crop_height startCrop).

(** The four assignments under [// Boundary checks]; each later one reads
    the fields the earlier ones wrote. *)
Definition boundaryChecks (newCrop : Crop) : Crop :=
  let x := Qmax 0 (Qmin (crop_x newCrop) (1 - crop_width newCrop)) in
  let y := Qmax 0 (Qmin (crop_y newCrop) (1 - crop_height newCrop)) in
  let width := Qmin (crop_width newCrop) (1 - x) in
  let height := Qmin (crop_height newCrop) (1 - y) in
  mkCrop x y width height.

(** The rectangle [handleCropMouseMove] passes to [setCrop], from the
    interaction in progress and the pointer's normalised displacement. *)
Definition nextCrop (ci : CropInteraction) (aspectRatio : AspectRatio)
    (dx dy : Q) : Crop :=
  let newCrop := startCrop ci in
  let newCrop :=
    if JS.startsWith (typeName (ci_type ci)) "resize-"
    then resizeCrop (ci_type ci) (startCrop ci) aspectRatio dx dy
    else if String.eqb (typeName (ci_type ci)) "move"
         then moveCrop (startCrop ci) dx dy
         else newCrop in
  boundaryChecks newCrop.

(** ** Images and files *)

Inductive Pixel := RGBA (r g b a : Z).

Definition transparent : Pixel := RGBA 0 0 0 0.

(** A decoded image or the backing store of a canvas: its size in pixels
    and the colour at each column and row. *)
Record Raster := mkRaster {
  raster_width : Z;
  raster_height : Z;
  raster_pixel : Z -> Z -> Pixel
}.

(** A [File].  Its bytes are represented by what the browser's decoder
    makes of them: [None] when an [Image] given this file never fires
    [onload]. *)
Record File := mkFile {
  file_name : string;
  file_type : string;
  file_image : option Raster
}.

(** [EditedImage] of [../types] *)
Record EditedImage := mkEdited {
  imageUrl : string;
  text : string
}.

(** ** Promises and thrown values *)

(** What a [catch] clause receives: an [Error] with its [message], or
    some other value (for which [err instanceof Error] is false). *)
Inductive Thrown :=
| ErrorObject (message : string)
| OtherValue.

(** How a promise settles, if it does. *)
Inductive Settled (A : Type) :=
| Fulfilled (value : A)
| Rejected (reason : Thrown)
| Pending.

Arguments Fulfilled {A} value.
Arguments Rejected {A} reason.
Arguments Pending {A}.

(** ** The generative-image service *)

Record InlineData := mkInlineData {
  inline_data : string;
  inline_mimeType : string
}.

Record Part := mkPart {
  part_inlineData : option InlineData;
  part_text : option string
}.

(** A candidate, with [content.parts] when both are present. *)
Record Candidate := mkCandidate {
  candidate_parts : option (list Part)
}.

Record Response := mkResponse {
  candidates : option (list Candidate)
}.

Inductive Modality := IMAGE | TEXT.

(** The argument of [ai.models.generateContent]. *)
Record Request := mkRequest {
  req_apiKey : string;
  req_model : string;
  req_data : option string;
  req_mimeType : string;
  req_text : string;
  req_responseModalities : list Modality
}.

(** ** The environment *)

Record Env := mkEnv {
  (** [process.env.API_KEY] *)
  API_KEY : option string;
  (** [canvas.getContext('2d')] returns a context *)
  getContext2d : bool;
  (** [canvas.toBlob] hands its callback a blob *)
  toBlobSucceeds : bool;
  (** [FileReader.readAsDataURL]: the data URL, or [None] for [onerror] *)
  readAsDataURL : File -> option string;
  (** [ai.models.generateContent] *)
  generateContent : Request -> Settled Response;
  (** the message of the [TypeError] the engine throws on reading a
      property of [undefined] *)
  typeErrorMessage : string;
  (** The rasteriser behind [ctx.filter], [ctx.translate], [ctx.rotate]
      and the three-argument [ctx.drawImage]: the colour it leaves at a
      canvas pixel, from the filter string, the rotation in degrees, the
      canvas size and the image. *)
  paintRotated : string -> Z -> Z -> Z -> Raster -> Z -> Z -> Pixel;
  (** The resampler behind the nine-argument [ctx.drawImage] when the
      source rectangle is not pixel-aligned and of the destination's
      size. *)
  resample : Raster -> Q -> Q -> Q -> Q -> Q -> Q -> Q -> Q -> Z -> Z -> Pixel
}.

(** ** Component state *)

Record Position := mkPosition { pos_x : Q; pos_y : Q }.

Record State := mkState {
  imageFile : File;
  prompt : string;
  isLoading : bool;
  error : option string;
  editedImage : option EditedImage;
  selectedFilter : string;
  rotation : Z;
  blur : Z;
  sharpen : Z;
  scale : Q;
  position : Position;
  isPanning : bool;
  isCropping : bool;
  crop : Crop;
  cropInteraction : option CropInteraction;
  aspectRatio : AspectRatio
}.

Definition setImageFile (v : File) (s : State) : State :=
  mkState v (prompt s) (isLoading s) (error s) (editedImage s)
    (selectedFilter s) (rotation s) (blur s) (sharpen s) (scale s)
    (position s) (isPanning s) (isCropping s) (crop s) (cropInteraction s)
    (aspectRatio s).

Definition setPrompt (v : string) (s : State) : State :=
  mkState (imageFile s) v (isLoading s) (error s) (editedImage s)
    (selectedFilter s) (rotation s) (blur s) (sharpen s) (scale s)
    (position s) (isPanning s) (isCropping s) (crop s) (cropInteraction s)
    (aspectRatio s).

Definition setIsLoading (v : bool) (s : State) : State :=
  mkState (imageFile s) (prompt s) v (error s) (editedImage s)
    (selectedFilter s) (rotation s) (blur s) (sharpen s) (scale s)
    (position s) (isPanning s) (isCropping s) (crop s) (cropInteraction s)
    (aspectRatio s).

Definition setError (v : option string) (s : State) : State :=
  mkState (imageFile s) (prompt s) (isLoading s) v (editedImage s)
    (selectedFilter s) (rotation s) (blur s) (sharpen s) (scale s)
    (position s) (isPanning s) (isCropping s) (crop s) (cropInteraction s)
    (aspectRatio s).

Definition setEditedImage (v : option EditedImage) (s : State) : State :=
  mkState (imageFile s) (prompt s) (isLoading s) (error s) v
    (selectedFilter s) (rotation s) (blur s) (sharpen s) (scale s)
    (position s) (isPanning s) (isCropping s) (crop s) (cropInteraction s)
    (aspectRatio s).

Definition setSelectedFilter (v : string) (s : State) : State :=
  mkState (imageFile s) (prompt s) (isLoading s) (error s) (editedImage s)
    v (rotation s) (blur s) (sharpen s) (scale s)
    (position s) (isPanning s) (isCropping s) (crop s) (cropInteraction s)
    (aspectRatio s).

Definition setRotation (v : Z) (s : State) : State :=
  mkState (imageFile s) (prompt s) (isLoading s) (error s) (editedImage s)
    (selectedFilter s) v (blur s) (sharpen s) (scale s)
    (position s) (isPanning s) (isCropping s) (crop s) (cropInteraction s)
    (aspectRatio s).

Definition setBlur (v : Z) (s : State) : State :=
  mkState (imageFile s) (prompt s) (isLoading s) (error s) (editedImage s)
    (selectedFilter s) (rotation s) v (sharpen s) (scale s)
    (position s) (isPanning s) (isCropping s) (crop s) (cropInteraction s)
    (aspectRatio s).

Definition setSharpen (v : Z) (s : State) : State :=
  mkState (imageFile s) (prompt s) (isLoading s) (error s) (editedImage s)
    (selectedFilter s) (rotation s) (blur s) v (scale s)
    (position s) (isPanning s) (isCropping s) (crop s) (cropInteraction s)
    (aspectRatio s).

Definition setScale (v : Q) (s : State) : State :=
  mkState (imageFile s) (prompt s) (isLoading s) (error s) (editedImage s)
    (selectedFilter s) (rotation s) (blur s) (sharpen s) v
    (position s) (isPanning s) (isCropping s) (crop s) (cropInteraction s)
    (aspectRatio s).

Definition setPosition (v : Position) (s : State) : State :=
  mkState (imageFile s) (prompt s) (isLoading s) (error s) (editedImage s)
    (selectedFilter s) (rotation s) (blur s) (sharpen s) (scale s)
    v (isPanning s) (isCropping s) (crop s) (cropInteraction s)
    (aspectRatio s).

Definition setIsPanning (v : bool) (s : State) : State :=
  mkState (imageFile s) (prompt s) (isLoading s) (error s) (editedImage s)
    (selectedFilter s) (rotation s) (blur s) (sharpen s) (scale s)
    (position s) v (isCropping s) (crop s) (cropInteraction s)
    (aspectRatio s).

Definition setIsCropping (v : bool) (s : State) : State :=
  mkState (imageFile s) (prompt s) (isLoading s) (error s) (editedImage s)
    (selectedFilter s) (rotation s) (blur s) (sharpen s) (scale s)
    (position s) (isPanning s) v (crop s) (cropInteraction s)
    (aspectRatio s).

Definition setCrop (v : Crop) (s : State) : State :=
  mkState (imageFile s) (prompt s) (isLoading s) (error s) (editedImage s)
    (selectedFilter s) (rotation s) (blur s) (sharpen s) (scale s)
    (position s) (isPanning s) (isCropping s) v (cropInteraction s)
    (aspectRatio s).

Definition setCropInteraction (v : option CropInteraction) (s : State) : State :=
  mkState (imageFile s) (prompt s) (isLoading s) (error s) (editedImage s)
    (selectedFilter s) (rotation s) (blur s) (sharpen s) (scale s)
    (position s) (isPanning s) (isCropping s) (crop s) v
    (aspectRatio s).

Definition setAspectRatio (v : AspectRatio) (s : State) : State :=
  mkState (imageFile s) (prompt s) (isLoading s) (error s) (editedImage s)
    (selectedFilter s) (rotation s) (blur s) (sharpen s) (scale s)
    (position s) (isPanning s) (isCropping s) (crop s) (cropInteraction s)
    v.

Definition defaultCrop : Crop := mkCrop 0.1 0.1 0.8 0.8.

(** The state of a freshly mounted editor (the [useState] initial
    values). *)
Definition initialState (file : File) : State :=
  mkState file "" false None None "None" 0 0 0 1 (mkPosition 0 0)
    false false defaultCrop None Free.

(** The effect keyed on [imageFile]: [// Reset state when imageFile prop
    changes]. *)
Definition resetOnImageFile (s : State) : State :=
  setCrop defaultCrop
    (setIsCropping false
      (setPosition (mkPosition 0 0)
        (setScale 1
          (setSharpen 0
            (setBlur 0
              (setRotation 0
                (setSelectedFilter "None"
                  (setError None
                    (setPrompt ""
                      (setEditedImage None s)))))))))).

(** [onSetNewOriginal(file)]: the parent ([App]) stores the file with
    [setOriginalImage], the prop changes and the effect above runs. *)
Definition onSetNewOriginal (file : File) (s : State) : State :=
  resetOnImageFile (setImageFile file s).

(** ** Pointer and wheel events, element geometry *)

Record DOMRect := mkRect {
  rect_left : Q;
  rect_top : Q;
  rect_width : Q;
  rect_height : Q
}.

Record MouseEvent := mkMouse {
  button : Z;
  clientX : Q;
  clientY : Q;
  movementX : Q;
  movementY : Q
}.

Record WheelEvent := mkWheel {
  deltaY : Q;
  wheel_clientX : Q;
  wheel_clientY : Q
}.

(** What the two refs point at when a handler runs:
    [imageRef.current?.getBoundingClientRect()] and
    [imageContainerRef.current?.getBoundingClientRect()]. *)
Record Dom := mkDom {
  imageRect : option DOMRect;
  containerRect : option DOMRect
}.

(** ** Cropping handlers *)

(** [handleCropMouseDown(e, type)] *)
Definition handleCropMouseDown (dom : Dom) (e : MouseEvent) (type : CropType)
    (s : State) : State :=
  if negb (button e =? 0)%Z then s
  else
    match imageRect dom, containerRect dom with
    | Some imageRect, Some _ =>
        let mouseX := (clientX e - rect_left imageRect) / rect_width imageRect in
        let mouseY := (clientY e - rect_top imageRect) / rect_height imageRect in
        setCropInteraction (Some (mkInteraction type mouseX mouseY (crop s))) s
    | _, _ => s
    end.

(** [handleCropMouseMove(e)] *)
Definition handleCropMouseMove (dom : Dom) (e : MouseEvent) (s : State) : State :=
  match cropInteraction s with
  | None => s
  | Some ci =>
      match imageRect dom with
      | None => s
      | Some imageRect =>
          let dx := (clientX e - rect_left imageRect) / rect_width imageRect
                    - startX ci in
          let dy := (clientY e - rect_top imageRect) / rect_height imageRect
                    - startY ci in
          setCrop (nextCrop ci (aspectRatio s) dx dy) s
      end
  end.

(** [handleCropMouseUp()] *)
Definition handleCropMouseUp (s : State) : State := setCropInteraction None s.

(** [handleCancelCrop()] *)
Definition handleCancelCrop (s : State) : State :=
  setCrop defaultCrop (setIsCropping false s).

(** The events of a cropping session, and the state after a sequence of
    them. *)
Inductive CropEvent :=
| CropMouseDown (dom : Dom) (e : MouseEvent) (type : CropType)
| CropMouseMove (dom : Dom) (e : MouseEvent)
| CropMouseUp
| SelectAspectRatio (ar : AspectRatio).

Definition cropStep (s : State) (ev : CropEvent) : State :=
  match ev with
  | CropMouseDown dom e type => handleCropMouseDown dom e type s
  | CropMouseMove dom e => handleCropMouseMove dom e s
  | CropMouseUp => handleCropMouseUp s
  | SelectAspectRatio ar => setAspectRatio ar s
  end.

Definition cropRun (evs : list CropEvent) (s : State) : State :=
  fold_left cropStep evs s.

(** ** Rotation, pan and zoom *)

(** [handleRotate(degrees)]; [%] is the remainder that takes the sign of
    the dividend. *)
Definition handleRotate (degrees : Z) (s : State) : State :=
  setRotation (Z.rem (rotation s + degrees + 360) 360) s.

(** The canvas the rotation effect draws for the preview
    ([rotatedImageUrl]) when it runs, that is outside crop mode; the
    context's filter is the initial ['none'].  [None] when the image does
    not load or no context can be had. *)
Definition rotatedImage (env : Env) (imageFile : File) (rotation : Z)
    : option Raster :=
  match file_image imageFile with
  | None => None
  | Some image =>
      if negb (getContext2d env) then None
      else
        let isSideways := (rotation =? 90)%Z || (rotation =? 270)%Z in
        let width := if isSideways then raster_height image else raster_width image in
        let height := if isSideways then raster_width image else raster_height image in
        Some (mkRaster width height
                (paintRotated env "none" rotation width height image))
  end.

(** [handleWheel(e)] *)
Definition handleWheel (dom : Dom) (e : WheelEvent) (s : State) : State :=
  match containerRect dom with
  | None => s
  | Some rect =>
      let newScale := if Qltb (deltaY e) 0 then scale s * 1.1 else scale s / 1.1 in
      let clampedScale := Qmin (Qmax 0.5 newScale) 5 in
      let mouseX := wheel_clientX e - rect_left rect in
      let mouseY := wheel_clientY e - rect_top rect in
      let newX := mouseX - (mouseX - pos_x (position s)) * (clampedScale / scale s) in
      let newY := mouseY - (mouseY - pos_y (position s)) * (clampedScale / scale s) in
      setPosition (mkPosition newX newY) (setScale clampedScale s)
  end.

Definition handleMouseDown (e : MouseEvent) (s : State) : State :=
  if isCropping s || negb (button e =? 0)%Z then s else setIsPanning true s.

Definition handleMouseMove (e : MouseEvent) (s : State) : State :=
  if negb (isPanning s) then s
  else setPosition (mkPosition (pos_x (position s) + movementX e)
                               (pos_y (position s) + movementY e)) s.

Definition handleMouseUp (s : State) : State := setIsPanning false s.

Definition handleMouseLeave (s : State) : State := setIsPanning false s.

Inductive ZoomDirection := zoom_in | zoom_out.

Definition handleZoomAction (direction : ZoomDirection) (s : State) : State :=
  setScale
    (Qmin (Qmax 0.5 (match direction with
                     | zoom_in => scale s * 1.2
                     | zoom_out => scale s / 1.2
                     end)) 5) s.

Definition handleResetView (s : State) : State :=
  setPosition (mkPosition 0 0) (setScale 1 s).

(** ** Filters *)

Definition filters : list (string * string) :=
  [ ("None", "none");
    ("Grayscale", "grayscale(100%)");
    ("Sepia", "sepia(100%)");
    ("Vintage", "sepia(60%) contrast(75%) brightness(120%) saturate(120%)");
    ("Invert", "invert(100%)") ]%string.

(** [blurValue > 0 ? `blur(${blurValue}px)` : ''] *)
Definition blurFilter (blurValue : Z) : string :=
  if (0 <? blurValue)%Z then "blur(" ++ JS.toString blurValue ++ "px)" else "".

(** [sharpenValue > 0 ? `contrast(${100 + sharpenValue}%)` : ''] *)
Definition sharpenFilter (sharpenValue : Z) : string :=
  if (0 <? sharpenValue)%Z
  then "contrast(" ++ JS.toString (100 + sharpenValue) ++ "%)" else "".

(** [f => f && f !== 'none'] *)
Definition keepFilter (f : string) : bool :=
  JS.truthy f && negb (String.eqb f "none").

(** [[filterStyle, blurFilter, sharpenFilter].filter(...).join(' ')] *)
Definition fullFilter (filterStyle : string) (blurValue sharpenValue : Z) : string :=
  JS.join " " (filter keepFilter
                 [filterStyle; blurFilter blurValue; sharpenFilter sharpenValue]).

(** [filters.find(f => f.name === selectedFilter)] *)
Definition activeFilter (s : State) : option (string * string) :=
  find (fun f => String.eqb (fst f) (selectedFilter s)) filters.

(** The [combinedFilterStyle] memo, the filter of the on-screen preview. *)
Definition combinedFilterStyle (s : State) : string :=
  let selected :=
    match activeFilter s with
    | Some f => if JS.truthy (snd f) then snd f else "none"
    | None => "none"
    end in
  let combined := fullFilter selected (blur s) (sharpen s) in
  if JS.truthy combined then combined else "none".

(** ** Baking the transforms into a raster *)

(** [applyTransformationsAndGetFile(file, filterStyle, rotationAngle,
    blurValue, sharpenValue)].  The promise has no [onerror] path: when
    the image never loads it stays pending. *)
Definition applyTransformationsAndGetFile (env : Env) (file : File)
    (filterStyle : string) (rotationAngle blurValue sharpenValue : Z)
    : Settled File :=
  match file_image file with
  | None => Pending
  | Some image =>
      if negb (getContext2d env)
      then Rejected (ErrorObject "Could not get canvas context")
      else
        let isSideways := (rotationAngle =? 90)%Z || (rotationAngle =? 270)%Z in
        let width := if isSideways then raster_height image else raster_width image in
        let height := if isSideways then raster_width image else raster_height image in
        let canvas :=
          mkRaster width height
            (paintRotated env (fullFilter filterStyle blurValue sharpenValue)
               rotationAngle width height image) in
        if negb (toBlobSucceeds env)
        then Rejected (ErrorObject "Canvas to Blob conversion failed")
        else Fulfilled (mkFile ("transformed-" ++ file_name file) "image/png"
                               (Some canvas))
  end.

(** ** The outbound adapter ([geminiService.ts]) *)

(** [fileToBase64(file)]: [reader.result.split(',')[1]], or the rejection
    with the reader's error event, which is not an [Error]. *)
Definition fileToBase64 (env : Env) (file : File) : Settled (option string) :=
  match readAsDataURL env file with
  | Some result => Fulfilled (nth_error (JS.split "," result) 1)
  | None => Rejected OtherValue
  end.

(** [process.env.API_KEY] is falsy: undefined or the empty string. *)
Definition credentialMissing (env : Env) : bool :=
  match API_KEY env with
  | Some key => negb (JS.truthy key)
  | None => true
  end.

(** The loop over [response.candidates[0].content.parts], threading
    [imageUrl] and [text]. *)
Definition scanPart (acc : string * string) (part : Part) : string * string :=
  match part_inlineData part with
  | Some inlineData =>
      ("data:" ++ inline_mimeType inlineData ++ ";base64," ++ inline_data inlineData,
       snd acc)
  | None =>
      match part_text part with
      | Some t => if JS.truthy t then (fst acc, t) else acc
      | None => acc
      end
  end.

(** The body of the [try] block after [generateContent] has answered:
    the edited image, or what is thrown. *)
Definition readResponse (env : Env) (response : Response) : EditedImage + Thrown :=
  let start := ("", "No text response from model.") in
  let scanned :=
    match candidates response with
    | Some (first :: _) =>
        match candidate_parts first with
        | Some parts => inl (fold_left scanPart parts start)
        | None => inr (ErrorObject (typeErrorMessage env))
        end
    | _ => inl start
    end in
  match scanned with
  | inr thrown => inr thrown
  | inl (imageUrl, text) =>
      if negb (JS.truthy imageUrl)
      then inr (ErrorObject
                  "API did not return an image. The model may have refused the request.")
      else inl (mkEdited imageUrl text)
  end.

(** The [catch] clause of the adapter: every failure of the [try] block
    is thrown again with a prefixed message. *)
Definition rethrow (error : Thrown) : Thrown :=
  let errorMessage :=
    match error with
    | ErrorObject message => message
    | OtherValue => "An unknown error occurred."
    end in
  ErrorObject ("Failed to edit image: " ++ errorMessage).

(** [editImageWithGemini(imageFile, prompt)]: how the returned promise
    settles, and the requests sent to the service on the way. *)
Definition editImageWithGemini (env : Env) (imageFile : File) (prompt : string)
    : Settled EditedImage * list Request :=
  if credentialMissing env
  then (Rejected (ErrorObject "API_KEY environment variable is not set."), [])
  else
    match fileToBase64 env imageFile with
    | Pending => (Pending, [])
    | Rejected reason => (Rejected reason, [])
    | Fulfilled base64ImageData =>
        let request :=
          mkRequest (match API_KEY env with Some key => key | None => "" end)
            "gemini-2.5-flash-image-preview" base64ImageData
            (file_type imageFile) prompt [IMAGE; TEXT] in
        match generateContent env request with
        | Pending => (Pending, [request])
        | Rejected error => (Rejected (rethrow error), [request])
        | Fulfilled response =>
            match readResponse env response with
            | inl result => (Fulfilled result, [request])
            | inr error => (Rejected (rethrow error), [request])
            end
        end
    end.

(** ** Submission *)

(** What the [try] block of [handleSubmit] did: how it ended, the calls
    of [applyTransformationsAndGetFile] and of [editImageWithGemini] it
    made (with their arguments) and the requests that reached the
    service. *)
Record Attempt := mkAttempt {
  outcome : Settled EditedImage;
  rasterCalls : list (File * string * Z * Z * Z);
  adapterCalls : list (File * string);
  requests : list Request
}.

(** What one run of [handleSubmit] did: the state it leaves, whether the
    event's default action was prevented, the attempt it made if it got
    that far, and whether the handler ran to its end. *)
Record Run := mkRun {
  final : State;
  defaultPrevented : bool;
  attempt : option Attempt;
  completed : bool
}.

(** [if (!prompt.trim() || isLoading) return;] *)
Definition submitRejected (s : State) : bool :=
  negb (JS.truthy (JS.trim (prompt s))) || isLoading s.

(** [activeFilter ? activeFilter.style : 'none'] *)
Definition filterStyleOf (s : State) : string :=
  match activeFilter s with
  | Some f => snd f
  | None => "none"
  end.

(** [filterStyle !== 'none' || rotation !== 0 || blur > 0 || sharpen > 0] *)
Definition transformActive (s : State) : bool :=
  negb (String.eqb (filterStyleOf s) "none")
  || negb (rotation s =? 0)%Z || (0 <? blur s)%Z || (0 <? sharpen s)%Z.

(** The [try] block. *)
Definition tryBlock (env : Env) (s : State) : Attempt :=
  let filterStyle := filterStyleOf s in
  if transformActive s then
    let args := (imageFile s, filterStyle, rotation s, blur s, sharpen s) in
    match applyTransformationsAndGetFile env (imageFile s) filterStyle
            (rotation s) (blur s) (sharpen s) with
    | Pending => mkAttempt Pending [args] [] []
    | Rejected err => mkAttempt (Rejected err) [args] [] []
    | Fulfilled imageToSend =>
        let '(result, sent) := editImageWithGemini env imageToSend (prompt s) in
        mkAttempt result [args] [(imageToSend, prompt s)] sent
    end
  else
    let imageToSend := imageFile s in
    let '(result, sent) := editImageWithGemini env imageToSend (prompt s) in
    mkAttempt result [] [(imageToSend, prompt s)] sent.

(** [err instanceof Error ? err.message : 'An unexpected error occurred.'] *)
Definition messageOf (err : Thrown) : string :=
  match err with
  | ErrorObject message => message
  | OtherValue => "An unexpected error occurred."
  end.

(** The end of the handler once the [try] block has settled: the success
    path, or the [catch] clause, then [finally].  A promise that never
    settles leaves the handler suspended. *)
Definition settle (result : Settled EditedImage) (s : State) : State :=
  match result with
  | Fulfilled edited => setIsLoading false (setEditedImage (Some edited) s)
  | Rejected err => setIsLoading false (setError (Some (messageOf err)) s)
  | Pending => s
  end.

Definition isSettled {A : Type} (result : Settled A) : bool :=
  match result with
  | Pending => false
  | _ => true
  end.

(** [handleSubmit(e)], which starts with [e.preventDefault()]. *)
Definition handleSubmit (env : Env) (s : State) : Run :=
  if submitRejected s then mkRun s true None true
  else
    let s1 := setEditedImage None (setError None (setIsLoading true s)) in
    let a := tryBlock env s in
    mkRun (settle (outcome a) s1) true (Some a) (isSettled (outcome a)).

(** The calls and requests of a run; none when the handler returned at
    its guard. *)
Definition rasterCallsOf (r : Run) : list (File * string * Z * Z * Z) :=
  match attempt r with Some a => rasterCalls a | None => [] end.

Definition adapterCallsOf (r : Run) : list (File * string) :=
  match attempt r with Some a => adapterCalls a | None => [] end.

Definition requestsOf (r : Run) : list Request :=
  match attempt r with Some a => requests a | None => [] end.

(** ** Applying the crop *)

(** The nine-argument [ctx.drawImage(image, sx, sy, sWidth, sHeight, dx,
    dy, dWidth, dHeight)] on a freshly created (transparent) canvas of
    the given size.  When the source rectangle has integer coordinates
    and the destination has its size at an integer offset, pixels are
    copied one to one; every other case is left to the browser's
    resampler. *)
Definition drawImage (env : Env) (image : Raster)
    (sx sy sWidth sHeight dx dy dWidth dHeight : Q) (width height : Z) : Raster :=
  let aligned :=
    isInteger sx && isInteger sy && isInteger sWidth && isInteger sHeight
    && isInteger dx && isInteger dy
    && Qeq_bool sWidth dWidth && Qeq_bool sHeight dHeight in
  mkRaster width height
    (fun i j =>
       if negb ((0 <=? i) && (i <? width) && (0 <=? j) && (j <? height))%Z
       then transparent
       else if aligned then
         let u := (i - Qfloor dx + Qfloor sx)%Z in
         let v := (j - Qfloor dy + Qfloor sy)%Z in
         if ((Qfloor dx <=? i) && (i <? Qfloor dx + Qfloor dWidth)
             && (Qfloor dy <=? j) && (j <? Qfloor dy + Qfloor dHeight)
             && (0 <=? u) && (u <? raster_width image)
             && (0 <=? v) && (v <? raster_height image))%Z
         then raster_pixel image u v
         else transparent
       else resample env image sx sy sWidth sHeight dx dy dWidth dHeight i j).

(** [handleApplyCrop()].  Nothing happens when the image never loads,
    when no context can be had, or when [toBlob] yields no blob. *)
Definition handleApplyCrop (env : Env) (s : State) : State :=
  match file_image (imageFile s) with
  | None => s
  | Some image =>
      if negb (getContext2d env) then s
      else
        let cropX := crop_x (crop s) * inject_Z (raster_width image) in
        let cropY := crop_y (crop s) * inject_Z (raster_height image) in
        let cropWidth := crop_width (crop s) * inject_Z (raster_width image) in
        let cropHeight := crop_height (crop s) * inject_Z (raster_height image) in
        let canvas :=
          drawImage env image cropX cropY cropWidth cropHeight
            0 0 cropWidth cropHeight
            (toUnsignedLong cropWidth) (toUnsignedLong cropHeight) in
        if negb (toBlobSucceeds env) then s
        else
          let newFile :=
            mkFile ("cropped-" ++ file_name (imageFile s)) "image/png" (Some canvas) in
          setIsCropping false (onSetNewOriginal newFile s)
  end.

(** ** Promoting a result, example prompts *)

(** What [fetch(url)] followed by [response.blob()] yields: the blob's
    MIME type and, as for a [File], what a decoder makes of its bytes. *)
Record Blob := mkBlob {
  blob_type : string;
  blob_image : option Raster
}.

(** [handleUseAsOriginal()], given how the fetch of a URL settles and the
    value of [Date.now()].  [editedImage?.imageUrl] is falsy when there is
    no result or its URL is empty. *)
Definition handleUseAsOriginal (fetchBlob : string -> Settled Blob) (now : Z)
    (s : State) : State :=
  match editedImage s with
  | None => s
  | Some edited =>
      if negb (JS.truthy (imageUrl edited)) then s
      else
        match fetchBlob (imageUrl edited) with
        | Pending => s
        | Fulfilled blob =>
            let newFileName := "edited-" ++ JS.toString now ++ ".png" in
            let newFile := mkFile newFileName (blob_type blob) (blob_image blob) in
            onSetNewOriginal newFile s
        | Rejected err =>
            setError
              (Some (match err with
                     | ErrorObject message => "Error setting new image: " ++ message
                     | OtherValue => "Could not use this image for further editing."
                     end)) s
        end
  end.

Definition examplePrompts : list string :=
  [ "Add a cute party hat";
    "Change background to a cityscape";
    "Make it a vintage photograph";
    "Turn sky into a sunset";
    "Add a small, friendly robot" ].

(** [handleExamplePrompt(example)] *)
Definition handleExamplePrompt (example : string) (s : State) : State :=
  setPrompt example s.

(** ** The wiring of the rendered controls *)

(** The value a range input reports: the user agent keeps it between the
    element's [min] and [max] (here with [step="1"], an integer). *)
Definition rangeValue (min max v : Z) : Z := Z.max min (Z.min max v).

Inductive RotateButton := RotateLeft | RotateRight.

(** What the user and the browser can do to the rendered component. *)
Inductive Event :=
| Wheel (dom : Dom) (e : WheelEvent)
| ContainerMouseDown (e : MouseEvent)
| ContainerMouseMove (dom : Dom) (e : MouseEvent)
| ContainerMouseUp
| ContainerMouseLeave
| OverlayMouseDown (dom : Dom) (e : MouseEvent) (type : CropType)
| ZoomClick (direction : ZoomDirection)
| ResetViewClick
| AspectRatioClick (ar : AspectRatio)
| CancelCropClick
| ApplyCropClick
| CropClick
| RotateClick (b : RotateButton)
| BlurChange (v : Z)
| SharpenChange (v : Z)
| FilterClick (n : nat)
| PromptChange (value : string)
| ExampleClick (n : nat)
| FormSubmit
| AlertClose
| UseAsOriginalClick (fetchBlob : string -> Settled Blob) (now : Z).

(** The handler each event reaches, as the JSX wires it: the container's
    mouse handlers are the crop ones in crop mode and the pan ones
    otherwise; the crop overlay, the aspect-ratio, cancel and apply
    buttons are rendered in crop mode only, and the crop, rotate, slider
    and filter controls outside it only; the prompt input and the example
    buttons are disabled while loading; the buttons on the result are
    rendered when there is a result and nothing is loading.  An event on
    a control that is not rendered or is disabled does nothing.  Each
    event is handled in the render that follows the previous one, so its
    handler reads the state the previous one left; a submission and an
    apply-crop run to their end, or to where they stay suspended, before
    the next event. *)
Definition uiStep (env : Env) (s : State) (ev : Event) : State :=
  match ev with
  | Wheel dom e => handleWheel dom e s
  | ContainerMouseDown e => handleMouseDown e s
  | ContainerMouseMove dom e =>
      if isCropping s then handleCropMouseMove dom e s else handleMouseMove e s
  | ContainerMouseUp =>
      if isCropping s then handleCropMouseUp s else handleMouseUp s
  | ContainerMouseLeave =>
      if isCropping s then handleCropMouseUp s else handleMouseLeave s
  | OverlayMouseDown dom e type =>
      if isCropping s then handleCropMouseDown dom e type s else s
  | ZoomClick direction => handleZoomAction direction s
  | ResetViewClick => handleResetView s
  | AspectRatioClick ar => if isCropping s then setAspectRatio ar s else s
  | CancelCropClick => if isCropping s then handleCancelCrop s else s
  | ApplyCropClick => if isCropping s then handleApplyCrop env s else s
  | CropClick => if isCropping s then s else setIsCropping true s
  | RotateClick b =>
      if isCropping s then s
      else handleRotate (match b with RotateLeft => -90 | RotateRight => 90 end)%Z s
  | BlurChange v => if isCropping s then s else setBlur (rangeValue 0 10 v) s
  | SharpenChange v => if isCropping s then s else setSharpen (rangeValue 0 100 v) s
  | FilterClick n =>
      if isCropping s then s
      else match nth_error filters n with
           | Some f => setSelectedFilter (fst f) s
           | None => s
           end
  | PromptChange value => if isLoading s then s else setPrompt value s
  | ExampleClick n =>
      if isLoading s then s
      else match nth_error examplePrompts n with
           | Some p => handleExamplePrompt p s
           | None => s
           end
  | FormSubmit => final (handleSubmit env s)
  | AlertClose =>
      match error s with
      | Some message => if JS.truthy message then setError None s else s
      | None => s
      end
  | UseAsOriginalClick fetchBlob now =>
      if isLoading s then s
      else match editedImage s with
           | Some _ => handleUseAsOriginal fetchBlob now s
           | None => s
           end
  end.

(** The state after a sequence of events. *)
Definition uiRun (env : Env) (evs : list Event) (s : State) : State :=
  fold_left (uiStep env) evs s.

(** ** The same arithmetic in binary64 *)

#[local] Set Warnings "-inexact-float".

Module Double.

(** [Math.min] and [Math.max] on numbers that are not NaN. *)
Definition min (a b : float) : float := if (b <? a)%float then b else a.

Definition max (a b : float) : float := if (a <? b)%float then b else a.

Record Crop := mkCrop {
  crop_x : float;
  crop_y : float;
  crop_width : float;
  crop_height : float
}.

(** The move branch of [handleCropMouseMove]. *)
Definition moveCrop (startCrop : Crop) (dx dy : float) : Crop :=
  mkCrop (crop_x startCrop + dx)%float (crop_y startCrop + dy)%float
         (crop_width startCrop) (crop_height startCrop).

(** The four assignments under [// Boundary checks]. *)
Definition boundaryChecks (newCrop : Crop) : Crop :=
  let x := max 0%float (min (crop_x newCrop) (1 - crop_width newCrop)%float) in
  let y := max 0%float (min (crop_y newCrop) (1 - crop_height newCrop)%float) in
  let width := min (crop_width newCrop) (1 - x)%float in
  let height := min (crop_height newCrop) (1 - y)%float in
  mkCrop x y width height.

(** [handleZoomAction('in')] on the scale. *)
Definition zoomIn (scale : float) : float :=
  min (max 0.5%float (scale * 1.2)%float) 5%float.

(** The scale [handleWheel] sets. *)
Definition wheelScale (scale deltaY : float) : float :=
  let newScale := if (deltaY <? 0)%float then (scale * 1.1)%float
                  else (scale / 1.1)%float in
  min (max 0.5%float newScale) 5%float.

(** One coordinate of the offset [handleWheel] sets:
    [mouseX - (mouseX - position.x) * (clampedScale / scale)]. *)
Definition wheelOffset (mouse position scale clampedScale : float) : float :=
  (mouse - (mouse - position) * (clampedScale / scale))%float.

End Double.

(** ** Where a point of the image is on screen *)

(** The image sits in a block that the flex container centres
    ([flex items-center justify-center]) and that carries
    [transform: translate(position) scale(scale)] with the default
    transform origin, its centre.  Along either axis, the coordinate,
    relative to the container's left (top) edge, of the image point at
    distance [u] from the image's centre is then half the container's
    width (height) plus the offset plus [scale * u]. *)
Definition onScreen (containerSize position scale u : Q) : Q :=
  containerSize / 2 + position + scale * u.

(** ** Vocabulary for the statements *)

(** The rectangle lies within the image. *)
Definition withinImage (c : Crop) : Prop :=
  0 <= crop_x c /\ 0 <= crop_y c /\
  crop_x c + crop_width c <= 1 /\ crop_y c + crop_height c <= 1.

(** Both sides have at least the minimum size. *)
Definition atLeastMinSize (c : Crop) : Prop :=
  minSize <= crop_width c /\ minSize <= crop_height c.

Definition isResize (t : CropType) : bool :=
  match t with move => false | _ => true end.

(** The vertical edge a handle leaves in place: the right edge for the
    handles on the left side, the left edge for all others. *)
Definition anchorX (t : CropType) (c : Crop) : Q :=
  match t with
  | resize_tl | resize_bl | resize_l => crop_x c + crop_width c
  | _ => crop_x c
  end.

(** The horizontal edge a handle leaves in place: the bottom edge for the
    handles on the top side, the top edge for all others. *)
Definition anchorY (t : CropType) (c : Crop) : Q :=
  match t with
  | resize_tl | resize_t | resize_tr => crop_y c + crop_height c
  | _ => crop_y c
  end.

(** The event does not select a fixed ratio. *)
Definition keepsFree (ev : CropEvent) : Prop :=
  match ev with
  | SelectAspectRatio ar => ar = Free
  | _ => True
  end.

(** The pointer's displacement since the start of the interaction, in
    image-relative units, as [handleCropMouseMove] computes it. *)
Definition pointerDx (imageRect : DOMRect) (e : MouseEvent) (ci : CropInteraction) : Q :=
  (clientX e - rect_left imageRect) / rect_width imageRect - startX ci.

Definition pointerDy (imageRect : DOMRect) (e : MouseEvent) (ci : CropInteraction) : Q :=
  (clientY e - rect_top imageRect) / rect_height imageRect - startY ci.

(** The slider and button wiring keeps these facts about the transform
    controls: the selected filter is one of [filters] (its buttons are the
    only callers of [setSelectedFilter]) and the range inputs have
    [min="0"]. *)
Definition controlsInRange (s : State) : Prop :=
  In (selectedFilter s) (map fst filters) /\ (0 <= blur s)%Z /\ (0 <= sharpen s)%Z.


(** [n] applications of a handler. *)
Fixpoint times {A : Type} (n : nat) (f : A -> A) (a : A) : A :=
  match n with
  | O => a
  | S n' => times n' f (f a)
  end.

(** ** Sample data *)

(** A 1000 by 800 photograph. *)
Definition sampleImage : Raster :=
  mkRaster 1000 800
    (fun i j => RGBA (i mod 256) (j mod 256) ((i + j) mod 256) 255).

Definition sampleFile : File := mkFile "photo.jpg" "image/jpeg" (Some sampleImage).

(** The image shown at its natural size, 100 pixels below the top of a
    1000 by 1000 container. *)
Definition sampleDom : Dom :=
  mkDom (Some (mkRect 0 100 1000 800)) (Some (mkRect 0 0 1000 1000)).

(** A pointer event with the primary button at the given client
    position. *)
Definition pointerAt (x y : Q) : MouseEvent := mkMouse 0 x y 0 0.

(** An editor in crop mode on the sample photograph. *)
Definition croppingState : State := setIsCropping true (initialState sampleFile).

(** With 16:9 selected, the bottom-right handle is pressed where it sits
    (at 90% of the width and height) and dragged left to 15% of the
    width. *)
Definition narrowDrag : list CropEvent :=
  [ SelectAspectRatio Ratio_16_9;
    CropMouseDown sampleDom (pointerAt 900 820) resize_br;
    CropMouseMove sampleDom (pointerAt 150 820) ].

(** The same image zoomed out to half its size about the centre of the
    container. *)
Definition zoomedOutDom : Dom :=
  mkDom (Some (mkRect 250 300 500 400)) (Some (mkRect 0 0 1000 1000)).

(** Zoomed out, with 16:9 selected, the bottom-right handle is pressed
    where it sits and dragged right, past the image's edge but inside the
    container, to 130% of the image's width. *)
Definition wideDrag : list CropEvent :=
  [ SelectAspectRatio Ratio_16_9;
    CropMouseDown zoomedOutDom (pointerAt 700 660) resize_br;
    CropMouseMove zoomedOutDom (pointerAt 900 660) ].

(** The crop body is pressed at the centre of the image. *)
Definition bodyDrag : list CropEvent :=
  [ CropMouseDown sampleDom (pointerAt 500 500) move ].

(** With 4:3 selected, the top-left handle is pressed where it sits (at
    10% of the width and height). *)
Definition cornerPress : list CropEvent :=
  [ SelectAspectRatio Ratio_4_3;
    CropMouseDown sampleDom (pointerAt 100 180) resize_tl ].

(** A response carrying a caption and an image. *)
Definition sampleResponse : Response :=
  mkResponse
    (Some [mkCandidate
             (Some [mkPart None (Some "A hat was added.");
                    mkPart (Some (mkInlineData "iVBORw0KGgo=" "image/png")) None])]).

(** A browser in which everything works, with a service that answers
    [sampleResponse].  Its rasteriser and resampler are stand-ins that
    copy the source pixel at the same coordinates. *)
Definition sampleEnv : Env :=
  mkEnv (Some "secret") true true
    (fun f => Some ("data:" ++ file_type f ++ ";base64,/9j/4AAQSkZJRg=="))
    (fun _ => Fulfilled sampleResponse)
    "Cannot read properties of undefined (reading 'parts')"
    (fun _ _ _ _ image i j => raster_pixel image i j)
    (fun image _ _ _ _ _ _ _ _ i j => raster_pixel image i j).

(** The same browser without the credential. *)
Definition noKeyEnv : Env :=
  mkEnv None true true (readAsDataURL sampleEnv) (generateContent sampleEnv)
    (typeErrorMessage sampleEnv) (paintRotated sampleEnv) (resample sampleEnv).

(** The same browser with a service that cannot be reached. *)
Definition offlineEnv : Env :=
  mkEnv (Some "secret") true true (readAsDataURL sampleEnv)
    (fun _ => Rejected (ErrorObject "fetch failed"))
    (typeErrorMessage sampleEnv) (paintRotated sampleEnv) (resample sampleEnv).

(** An editor on the sample photograph with a prompt typed in. *)
Definition promptedState : State := setPrompt "Add a hat" (initialState sampleFile).

(** The crop rectangle of the scenario, set on the sample photograph. *)
Definition quarterCropState : State :=
  setCrop (mkCrop 0.25 0.25 0.5 0.5) croppingState.

(** Grayscale and a blur of 4 selected, with the prompt typed in. *)
Definition grayscaleBlurState : State :=
  setBlur 4 (setSelectedFilter "Grayscale" promptedState).

(** The prompt typed in while an earlier result is on display. *)
Definition resubmitState : State :=
  setEditedImage (Some (mkEdited "data:image/png;base64,iVBORw0KGgo=" "A hat was added."))
    promptedState.

(** ** Vocabulary for the properties of the whole component *)

(** A multiple of a quarter turn below a full turn. *)
Definition rightAngle (r : Z) : Prop :=
  (r = 0 \/ r = 90 \/ r = 180 \/ r = 270)%Z.

(** The transform controls hold values their elements can report: one
    of the filter names, a blur of 0 to 10, a sharpen of 0 to 100. *)
Definition controlsValid (s : State) : Prop :=
  In (selectedFilter s) (map fst filters) /\
  (0 <= blur s <= 10)%Z /\ (0 <= sharpen s <= 100)%Z.

(** The event does not select a fixed ratio. *)
Definition leavesRatioFree (ev : Event) : Prop :=
  match ev with
  | AspectRatioClick ar => ar = Free
  | _ => True
  end.




(** The least height a resize can leave in each ratio mode: the minimum
    size, divided by the ratio when one is fixed. *)
Definition heightFloor (a : AspectRatio) : Q :=
  match a with
  | Free => 0.05
  | Ratio_1_1 => 0.05
  | Ratio_16_9 => 0.028125
  | Ratio_4_3 => 0.0375
  end.

(** Three pointer moves of a drag. *)
Definition sampleMoves : list MouseEvent :=
  [ mkMouse 0 510 505 10 5; mkMouse 0 530 500 20 (-5); mkMouse 0 525 520 (-5) 20 ].

(** A file no decoder accepts, under an image name. *)
Definition brokenFile : File := mkFile "broken.jpg" "image/jpeg" None.

(** An editor on the broken file, rotated once, with a prompt typed in. *)
Definition brokenRotatedState : State :=
  handleRotate 90 (setPrompt "Add a hat" (initialState brokenFile)).

(** The part carries no inline data. *)
Definition noInlineData (p : Part) : bool :=
  match part_inlineData p with
  | Some _ => false
  | None => true
  end.

(** The part contributes no text: it carries inline data (its text is
    then not looked at), or its text is absent or empty. *)
Definition noText (p : Part) : bool :=
  match part_inlineData p, part_text p with
  | Some _, _ => true
  | None, Some t => negb (JS.truthy t)
  | None, None => true
  end.

(** The response has no image in the only place the adapter looks: its
    candidate list is absent or empty, or the parts of its first
    candidate carry no inline data. *)
Definition imageless (response : Response) : Prop :=
  match candidates response with
  | Some (first :: _) =>
      exists parts,
        candidate_parts first = Some parts /\ forallb noInlineData parts = true
  | _ => True
  end.

(** The character occurs in the string. *)
Fixpoint hasChar (c : ascii) (s : string) : bool :=
  match s with
  | EmptyString => false
  | String c' s' => Ascii.eqb c' c || hasChar c s'
  end.

(** The URL the adapter builds for an inline image. *)
Definition dataUrl (d : InlineData) : string :=
  "data:" ++ inline_mimeType d ++ ";base64," ++ inline_data d.

(** A service that answers with two images and a caption between them. *)
Definition twoImagesEnv : Env :=
  mkEnv (Some "secret") true true (readAsDataURL sampleEnv)
    (fun _ =>
       Fulfilled
         (mkResponse
            (Some [mkCandidate
                     (Some [mkPart (Some (mkInlineData "Zmlyc3Q=" "image/png")) None;
                            mkPart None (Some "Two variants.");
                            mkPart (Some (mkInlineData "c2Vjb25k" "image/webp")) None])])))
    (typeErrorMessage sampleEnv) (paintRotated sampleEnv) (resample sampleEnv).

(** A service that answers with text only. *)
Definition refusingEnv : Env :=
  mkEnv (Some "secret") true true (readAsDataURL sampleEnv)
    (fun _ =>
       Fulfilled
         (mkResponse
            (Some [mkCandidate (Some [mkPart None (Some "I cannot edit this image.")])])))
    (typeErrorMessage sampleEnv) (paintRotated sampleEnv) (resample sampleEnv).

(** A browser whose file reader fails. *)
Definition unreadableEnv : Env :=
  mkEnv (Some "secret") true true (fun _ => None) (generateContent sampleEnv)
    (typeErrorMessage sampleEnv) (paintRotated sampleEnv) (resample sampleEnv).

(** A crop of the sample photograph on pixel boundaries, in a state with
    a rotation, a filter and a blur pending. *)
Definition alignedCropState : State :=
  setCrop (mkCrop 0.1 0.05 0.6 0.75)
    (setIsCropping true
       (setBlur 3 (setSelectedFilter "Sepia" (handleRotate 90 promptedState)))).

(** A fetch that yields a WebP blob of the sample image. *)
Definition sampleFetch (url : string) : Settled Blob :=
  Fulfilled (mkBlob "image/webp" (Some sampleImage)).

(** A fetch that fails. *)
Definition failingFetch (url : string) : Settled Blob :=
  Rejected (ErrorObject "Failed to fetch").


(** A browser whose rasteriser leaves a trace of its arguments in every
    pixel: the length of the filter string in the red channel and the
    rotation in the green one. *)
Definition tracingEnv : Env :=
  mkEnv (Some "secret") true true (readAsDataURL sampleEnv) (generateContent sampleEnv)
    (typeErrorMessage sampleEnv)
    (fun filterString rotationAngle _ _ image i j =>
       match raster_pixel image i j with
       | RGBA _ _ b a => RGBA (Z.of_nat (String.length filterString)) rotationAngle b a
       end)
    (resample sampleEnv).

(** Sepia, a blur of 2 and a sharpen of 25 selected after a quarter turn,
    with the prompt typed in. *)
Definition fullyAdjustedState : State :=
  setSharpen 25 (setBlur 2 (setSelectedFilter "Sepia" (handleRotate 90 promptedState))).

(** A session on the sample photograph: zoom, rotate, adjust, crop with a
    fixed ratio, apply. *)
Definition sampleSession : list Event :=
  [ Wheel sampleDom (mkWheel (-100) 400 300);
    RotateClick RotateRight;
    BlurChange 4;
    FilterClick 2;
    CropClick;
    AspectRatioClick Ratio_16_9;
    OverlayMouseDown sampleDom (pointerAt 900 820) resize_br;
    ContainerMouseMove sampleDom (pointerAt 150 820);
    ContainerMouseUp;
    ApplyCropClick ].

(** A free-ratio crop session: the right handle is dragged inwards, then
    the body is dragged past the top-left corner. *)
Definition freeSession : list Event :=
  [ CropClick;
    OverlayMouseDown sampleDom (pointerAt 900 500) resize_r;
    ContainerMouseMove sampleDom (pointerAt 20 500);
    ContainerMouseUp;
    OverlayMouseDown sampleDom (pointerAt 120 500) move;
    ContainerMouseMove sampleDom (pointerAt (-300) (-200));
    ContainerMouseLeave ].

(* ================================================================== *)
(** * Part II: properties *)
(* ================================================================== *)

(** ** Numbers and strings *)

Lemma Qltb_true (a b : Q) : Qltb a b = true <-> a < b.
Proof.
  unfold Qltb. rewrite negb_true_iff.
  split; intro H.
  - apply Qnot_le_lt. intro Hle. apply Qle_bool_iff in Hle. congruence.
  - destruct (Qle_bool b a) eqn:E; [|reflexivity].
    apply Qle_bool_iff in E. exfalso. apply (Qlt_not_le _ _ H E).
Qed.

Lemma Qltb_false (a b : Q) : Qltb a b = false <-> b <= a.
Proof.
  unfold Qltb. rewrite negb_false_iff. apply Qle_bool_iff.
Qed.

Lemma Qmin_left (a b : Q) : a <= b -> Qmin a b = a.
Proof.
  intro H. unfold Qmin, GenericMinMax.gmin.
  destruct (Qcompare_spec a b) as [E|E|E]; try reflexivity.
  exfalso. apply (Qlt_not_le _ _ E H).
Qed.

(** Case analysis on every [Qmin] and [Qmax] of the goal, then linear
    arithmetic. *)
Ltac name_minmax f a b lem :=
  let m := fresh "m" in
  let H := fresh "Hm" in
  pose proof (lem a b) as H;
  set (m := f a b) in *; clearbody m.

Ltac minmax_cases :=
  repeat match goal with
  | |- context [Qmin ?a ?b] => name_minmax Qmin a b Q.min_spec
  | |- context [Qmax ?a ?b] => name_minmax Qmax a b Q.max_spec
  | _ : context [Qmin ?a ?b] |- _ => name_minmax Qmin a b Q.min_spec
  | _ : context [Qmax ?a ?b] |- _ => name_minmax Qmax a b Q.max_spec
  end;
  repeat match goal with
  | H : _ \/ _ |- _ => destruct H as [[? ?]|[? ?]]
  end;
  try lra.

(** Evaluate the string tests of the handlers on a literal handle name. *)
Ltac eval_strings :=
  repeat match goal with
  | |- context [JS.includes ?s ?c] =>
      let b := eval vm_compute in (JS.includes s c) in
      change (JS.includes s c) with b
  | |- context [JS.startsWith ?s ?c] =>
      let b := eval vm_compute in (JS.startsWith s c) in
      change (JS.startsWith s c) with b
  | |- context [String.eqb ?s ?c] =>
      let b := eval vm_compute in (String.eqb s c) in
      change (String.eqb s c) with b
  | |- context [parseRatio ?s] =>
      let b := eval vm_compute in (parseRatio s) in
      change (parseRatio s) with b
  end.

(** The handle names on which each test of the resize branch succeeds.
    Every name of the form [resize-...] contains the letter r. *)
Lemma includes_r_every_resize (t : CropType) :
  isResize t = true -> JS.includes (typeName t) "r" = true.
Proof. destruct t; intro H; try discriminate H; reflexivity. Qed.

Lemma startsWith_resize (t : CropType) :
  JS.startsWith (typeName t) "resize-" = isResize t.
Proof. destruct t; reflexivity. Qed.

(** The labels parse to the ratios they name. *)
Lemma parseRatio_label (a : AspectRatio) :
  a <> Free ->
  exists ratio, parseRatio (aspectLabel a) = Some ratio /\ ratio == targetRatio a.
Proof.
  destruct a; intro H; try congruence.
  - exists (inject_Z 1 / inject_Z 1). split; reflexivity.
  - exists (inject_Z 16 / inject_Z 9). split; reflexivity.
  - exists (inject_Z 4 / inject_Z 3). split; reflexivity.
Qed.

Lemma trimEnd_whitespaceOnly (s : string) :
  JS.whitespaceOnly s = true -> JS.trimEnd s = "".
Proof.
  induction s as [|c s IH]; simpl; intro H; [reflexivity|].
  apply andb_prop in H. destruct H as [Hc Hs].
  rewrite (IH Hs), Hc. reflexivity.
Qed.

Lemma trimEnd_empty (s : string) :
  JS.trimEnd s = "" -> JS.whitespaceOnly s = true.
Proof.
  induction s as [|c s IH]; simpl; intro H; [reflexivity|].
  destruct (JS.trimEnd s) eqn:E.
  - destruct (JS.isWhiteSpace c); [|discriminate H].
    simpl. apply IH. reflexivity.
  - discriminate H.
Qed.

Lemma trimStart_whitespaceOnly (s : string) :
  JS.whitespaceOnly (JS.trimStart s) = true <-> JS.whitespaceOnly s = true.
Proof.
  induction s as [|c s IH]; simpl; [tauto|].
  destruct (JS.isWhiteSpace c) eqn:E; simpl.
  - exact IH.
  - rewrite E. simpl. tauto.
Qed.

(** [trim] yields the empty string exactly on the strings made of white
    space only. *)
Lemma trim_empty_iff (s : string) :
  JS.trim s = "" <-> JS.whitespaceOnly s = true.
Proof.
  unfold JS.trim. split; intro H.
  - apply trimStart_whitespaceOnly, trimEnd_empty, H.
  - apply trimEnd_whitespaceOnly, trimStart_whitespaceOnly, H.
Qed.

(** ** Crop geometry *)

(** The boundary checks put every rectangle inside the image. *)
Lemma boundaryChecks_withinImage (c : Crop) : withinImage (boundaryChecks c).
Proof.
  unfold withinImage, boundaryChecks; simpl.
  repeat split; minmax_cases.
Qed.

(** The boundary checks never take a side below the minimum size. *)
Lemma boundaryChecks_minSize (c : Crop) :
  atLeastMinSize c -> atLeastMinSize (boundaryChecks c).
Proof.
  unfold atLeastMinSize, boundaryChecks, minSize; simpl.
  intros [Hw Hh]. split; minmax_cases.
Qed.

(** A rectangle inside the image passes the boundary checks unchanged. *)
Lemma boundaryChecks_inside (c : Crop) :
  withinImage c ->
  crop_x (boundaryChecks c) == crop_x c /\
  crop_y (boundaryChecks c) == crop_y c /\
  crop_width (boundaryChecks c) == crop_width c /\
  crop_height (boundaryChecks c) == crop_height c.
Proof.
  unfold withinImage, boundaryChecks; simpl.
  intros (Hx & Hy & Hw & Hh). repeat split; minmax_cases.
Qed.

(** With the ratio left free, a resize yields sides of at least the
    minimum size. *)
Lemma resizeCrop_Free_minSize (t : CropType) (sc : Crop) (dx dy : Q) :
  atLeastMinSize (resizeCrop t sc Free dx dy).
Proof.
  unfold atLeastMinSize, resizeCrop.
  destruct t; cbv [typeName aspectLabel]; eval_strings; cbv [negb];
    repeat match goal with
    | |- context [Qltb ?a ?b] =>
        let E := fresh "E" in
        destruct (Qltb a b) eqn:E;
        [apply Qltb_true in E | apply Qltb_false in E]
    end; simpl; unfold minSize in *; split; lra.
Qed.

(** In free-ratio mode every pointer move of an interaction leaves a
    rectangle inside the image; after a resize its sides have at least
    the minimum size, and after a move they have it when the rectangle
    the interaction started from had it. *)
Lemma nextCrop_Free_invariant (ci : CropInteraction) (dx dy : Q) :
  (isResize (ci_type ci) = true \/ atLeastMinSize (startCrop ci)) ->
  withinImage (nextCrop ci Free dx dy) /\ atLeastMinSize (nextCrop ci Free dx dy).
Proof.
  intro H. unfold nextCrop. split; [apply boundaryChecks_withinImage|].
  apply boundaryChecks_minSize.
  rewrite startsWith_resize.
  destruct (isResize (ci_type ci)) eqn:E.
  - apply resizeCrop_Free_minSize.
  - destruct H as [H|H]; [discriminate H|].
    destruct (ci_type ci); try discriminate E.
    eval_strings. exact H.
Qed.

(** Whatever the mode, the rectangle handed to [setCrop] lies inside the
    image. *)
Lemma handleCropMouseMove_withinImage (dom : Dom) (e : MouseEvent) (s : State)
    (ci : CropInteraction) (r : DOMRect) :
  cropInteraction s = Some ci ->
  imageRect dom = Some r ->
  withinImage (crop (handleCropMouseMove dom e s)).
Proof.
  intros Hci Hr. unfold handleCropMouseMove. rewrite Hci, Hr. simpl.
  apply boundaryChecks_withinImage.
Qed.

(** With a fixed ratio selected, the rectangle a resize computes before
    the boundary checks has the selected ratio, and the edges opposite
    the handle are where they were when the interaction started. *)
Lemma resizeCrop_fixed_ratio (t : CropType) (sc : Crop) (a : AspectRatio) (dx dy : Q) :
  isResize t = true ->
  a <> Free ->
  let c := resizeCrop t sc a dx dy in
  crop_width c == targetRatio a * crop_height c /\
  anchorX t c == anchorX t sc /\
  anchorY t c == anchorY t sc.
Proof.
  intros Ht Ha.
  destruct t; try discriminate Ht; destruct a; try congruence;
    unfold resizeCrop; cbv [typeName aspectLabel]; eval_strings;
    cbv [negb orb anchorX anchorY targetRatio];
    repeat match goal with
    | |- context [Qltb ?u ?v] => destruct (Qltb u v)
    end; simpl; repeat split; field.
Qed.

(** The crop rectangle is written by pointer moves only. *)
Lemma cropStep_crop (s : State) (ev : CropEvent) :
  crop (cropStep s ev) = crop s \/
  exists dom e ci r,
    ev = CropMouseMove dom e /\ cropInteraction s = Some ci /\ imageRect dom = Some r /\
    crop (cropStep s ev)
    = nextCrop ci (aspectRatio s) (pointerDx r e ci) (pointerDy r e ci).
Proof.
  destruct ev as [dom e t|dom e| |ar]; simpl.
  - left. unfold handleCropMouseDown.
    destruct (negb (button e =? 0)%Z); [reflexivity|].
    destruct (imageRect dom); [|reflexivity].
    destruct (containerRect dom); reflexivity.
  - unfold handleCropMouseMove.
    destruct (cropInteraction s) as [ci|] eqn:Hci; [|left; reflexivity].
    destruct (imageRect dom) as [r|] eqn:Hr; [|left; reflexivity].
    right. exists dom, e, ci, r. repeat split; try assumption; reflexivity.
  - left. reflexivity.
  - left. reflexivity.
Qed.

(** Whatever the events of a cropping session and whatever the ratio, a
    rectangle inside the image stays inside the image. *)
Lemma cropRun_withinImage (evs : list CropEvent) (s : State) :
  withinImage (crop s) -> withinImage (crop (cropRun evs s)).
Proof.
  revert s. induction evs as [|ev evs IH]; intros s H; [exact H|].
  unfold cropRun in *. simpl. apply IH.
  destruct (cropStep_crop s ev) as [E|(dom & e & ci & r & _ & _ & _ & E)];
    rewrite E; [exact H|].
  unfold nextCrop. apply boundaryChecks_withinImage.
Qed.

(** While the ratio stays free, a session keeps the rectangle inside the
    image with both sides at the minimum size or more.  The rectangle an
    interaction started from is part of the invariant: it is a copy of
    the rectangle at the time of the press. *)
Lemma cropRun_Free_invariant (evs : list CropEvent) (s : State) :
  Forall keepsFree evs ->
  aspectRatio s = Free ->
  withinImage (crop s) /\ atLeastMinSize (crop s) ->
  (forall ci, cropInteraction s = Some ci -> atLeastMinSize (startCrop ci)) ->
  withinImage (crop (cropRun evs s)) /\ atLeastMinSize (crop (cropRun evs s)).
Proof.
  revert s. induction evs as [|ev evs IH]; intros s Hevs Hfree Hcrop Hstart;
    [exact Hcrop|].
  inversion Hevs as [|ev' evs' Hev Hrest]; subst.
  unfold cropRun in *. simpl. apply IH; try exact Hrest.
  - destruct ev as [dom e t|dom e| |ar]; simpl.
    + unfold handleCropMouseDown.
      destruct (negb (button e =? 0)%Z); [exact Hfree|].
      destruct (imageRect dom); [|exact Hfree].
      destruct (containerRect dom); exact Hfree.
    + unfold handleCropMouseMove.
      destruct (cropInteraction s); [|exact Hfree].
      destruct (imageRect dom); exact Hfree.
    + exact Hfree.
    + exact Hev.
  - destruct (cropStep_crop s ev) as [E|(dom & e & ci & r & _ & Hci & _ & E)];
      rewrite E; [exact Hcrop|].
    rewrite Hfree. apply nextCrop_Free_invariant. right. apply Hstart, Hci.
  - intro ci. destruct ev as [dom e t|dom e| |ar]; simpl.
    + unfold handleCropMouseDown.
      destruct (negb (button e =? 0)%Z); [apply Hstart|].
      destruct (imageRect dom); [|apply Hstart].
      destruct (containerRect dom); [|apply Hstart].
      simpl. intro H. inversion H. simpl. apply Hcrop.
    + unfold handleCropMouseMove.
      destruct (cropInteraction s) as [ci0|] eqn:Hci; [|rewrite Hci; discriminate].
      destruct (imageRect dom); [|rewrite Hci; apply Hstart].
      simpl. rewrite Hci. apply Hstart.
    + discriminate.
    + apply Hstart.
Qed.

(** Since the name of every resize handle contains the letter r, the
    step [width += dx] runs for each of them.  For the left handle it
    undoes [width -= dx]: in free-ratio mode the rectangle keeps its width
    and its x follows the pointer. *)
Example left_handle_keeps_width (sc : Crop) (dx dy : Q) :
  minSize <= crop_width sc -> minSize <= crop_height sc ->
  let c := resizeCrop resize_l sc Free dx dy in
  crop_width c == crop_width sc /\ crop_x c == crop_x sc + dx /\
  crop_y c = crop_y sc /\ crop_height c = crop_height sc.
Proof.
  intros Hw Hh. unfold resizeCrop. cbv [typeName aspectLabel]. eval_strings.
  cbv [negb].
  destruct (Qltb (crop_width sc - dx + dx) minSize) eqn:E1;
    [apply Qltb_true in E1; lra|].
  destruct (Qltb (crop_height sc) minSize) eqn:E2;
    [apply Qltb_true in E2; lra|].
  simpl. repeat split; try reflexivity. ring.
Qed.

(** For the same reason the first branch of the aspect-ratio step is
    taken for every handle: the height is always the one recomputed.
    With 1:1 selected, dragging the bottom handle of a square rectangle
    up or down leaves the rectangle as it was. *)
Example bottom_handle_under_ratio (dy : Q) :
  -0.5 <= dy <= 0.1 ->
  let c := nextCrop (mkInteraction resize_b 0.5 0.9 defaultCrop) Ratio_1_1 0 dy in
  crop_x c == 0.1 /\ crop_y c == 0.1 /\ crop_width c == 0.8 /\ crop_height c == 0.8.
Proof.
  intros H. unfold nextCrop, resizeCrop, boundaryChecks.
  cbv [ci_type startCrop typeName aspectLabel]. eval_strings. cbv [negb orb].
  destruct (Qltb (crop_width defaultCrop + 0) minSize) eqn:E1;
    [apply Qltb_true in E1; vm_compute in E1; discriminate E1|].
  destruct (Qltb (crop_height defaultCrop + dy) minSize) eqn:E2;
    cbn [crop_x crop_y crop_width crop_height defaultCrop];
    repeat split; minmax_cases.
Qed.

(** C1.  The rectangle after a pointer move is meant to keep both sides at
    0.05 or more.  On the sample photograph, with 16:9 selected, dragging
    the bottom-right handle from 90% to 15% of the width leaves a
    rectangle 0.05 wide and 0.028125 high: the width is held at the
    minimum, and the height is then recomputed from it without a second
    check. *)
Theorem min_height_lost_under_fixed_ratio :
  let c := crop (cropRun narrowDrag croppingState) in
  crop_x c == 0.1 /\ crop_y c == 0.1 /\
  crop_width c == 0.05 /\ crop_height c == 0.028125 /\
  ~ atLeastMinSize c.
Proof.
  repeat split; try (vm_compute; reflexivity).
  intros [_ H]. vm_compute in H. apply H. reflexivity.
Qed.

(** The same drag from the same state with the ratio left free keeps the
    height of the rectangle. *)
Example narrow_drag_free_ratio :
  let c := crop (cropRun (tl narrowDrag) croppingState) in
  crop_width c == 0.05 /\ crop_height c == 0.8.
Proof. split; vm_compute; reflexivity. Qed.

(** C10, as stated, fails in the arithmetic of the source.  A rectangle
    0.6 wide and 0.45 high at (0.1, 0.1), at most 1 wide and high, is
    dragged down by 0.9: it is stopped at y = 1 - 0.45 = 0.55, and its
    height becomes min(0.45, 1 - 0.55), which in binary64 is
    0.44999999999999996, less than the height it started with.  (The
    width, 0.6, is kept.) *)
Lemma move_height_rounded :
  let start := Double.mkCrop 0.1 0.1 0.6 0.45 in
  let c := Double.boundaryChecks (Double.moveCrop start 0 0.9) in
  (Double.crop_width start <=? 1)%float = true /\
  (Double.crop_height start <=? 1)%float = true /\
  (Double.crop_y c =? 0.55)%float = true /\
  (Double.crop_height c =? Double.crop_height start)%float = false /\
  (Double.crop_height c =? 0.44999999999999996)%float = true /\
  (Double.crop_width c =? Double.crop_width start)%float = true.
Proof. vm_compute. repeat split; reflexivity. Qed.

(** C10, amended.  A pointer move of a move interaction whose starting
    rectangle is at most 1 wide and high changes nothing in the state but
    the crop rectangle, which becomes [{x', y', min(w, 1 - x'),
    min(h, 1 - y')}] with [x' = max(0, min(x + dx, 1 - w))] and
    [y' = max(0, min(y + dy, 1 - h))]: x and y are translated by the
    pointer's displacement and clamped into [0, 1 - w] and [0, 1 - h],
    and width and height do not grow.  (In exact arithmetic
    [min(w, 1 - x')] is [w], see [boundaryChecks_keeps_size]; in binary64
    it is [w] or the rounding of [1 - (1 - w)] just below it.) *)
Theorem move_keeps_size (dom : Dom) (e : MouseEvent) (s : State)
    (ci : CropInteraction) (r : DOMRect) :
  cropInteraction s = Some ci ->
  imageRect dom = Some r ->
  ci_type ci = move ->
  crop_width (startCrop ci) <= 1 ->
  crop_height (startCrop ci) <= 1 ->
  let w := crop_width (startCrop ci) in
  let h := crop_height (startCrop ci) in
  let x := Qmax 0 (Qmin (crop_x (startCrop ci) + pointerDx r e ci) (1 - w)) in
  let y := Qmax 0 (Qmin (crop_y (startCrop ci) + pointerDy r e ci) (1 - h)) in
  handleCropMouseMove dom e s
  = setCrop (mkCrop x y (Qmin w (1 - x)) (Qmin h (1 - y))) s /\
  0 <= x /\ x <= 1 - w /\ 0 <= y /\ y <= 1 - h /\
  Qmin w (1 - x) <= w /\ Qmin h (1 - y) <= h.
Proof.
  intros Hci Hr Ht Hw Hh w h x y.
  assert (Hx : 0 <= x /\ x <= 1 - w) by (subst x w; split; minmax_cases).
  assert (Hy : 0 <= y /\ y <= 1 - h) by (subst y h; split; minmax_cases).
  split.
  - unfold handleCropMouseMove. rewrite Hci, Hr.
    unfold nextCrop. rewrite Ht. cbv [typeName]. eval_strings.
    unfold boundaryChecks, moveCrop; simpl.
    reflexivity.
  - repeat split; try tauto; apply Q.le_min_l.
Qed.

Lemma move_keeps_size_witness :
  let s := cropRun bodyDrag croppingState in
  let x := Qmax 0 (Qmin (0.1 + ((800 - 0) / 1000 - (500 - 0) / 1000)) (1 - 0.8)) in
  let y := Qmax 0 (Qmin (0.1 + ((580 - 100) / 800 - (500 - 100) / 800)) (1 - 0.8)) in
  handleCropMouseMove sampleDom (pointerAt 800 580) s
  = setCrop (mkCrop x y (Qmin 0.8 (1 - x)) (Qmin 0.8 (1 - y))) s /\
  Qmin 0.8 (1 - x) <= 0.8 /\ Qmin 0.8 (1 - y) <= 0.8.
Proof.
  destruct (move_keeps_size sampleDom (pointerAt 800 580)
              (cropRun bodyDrag croppingState)
              (mkInteraction move ((500 - 0) / 1000) ((500 - 100) / 800) defaultCrop)
              (mkRect 0 100 1000 800)
              eq_refl eq_refl eq_refl
              ltac:(vm_compute; discriminate) ltac:(vm_compute; discriminate))
    as (H & _ & _ & _ & _ & Hw & Hh).
  exact (conj H (conj Hw Hh)).
Defined.

(** C2.  With a fixed ratio selected, a resize is meant to leave a
    rectangle of that ratio with the corner opposite the handle where it
    was.  On the sample photograph, zoomed out, with 16:9 selected,
    dragging the bottom-right handle to 130% of the width gives a
    rectangle 1.2 wide before the boundary checks; they move its left
    edge to 0 and cut the width to 1 while the height stays 0.675, and
    nothing enforces the ratio or the anchor again.  The result has
    neither the ratio 16:9 (its ratio is about 1.48) nor its top-left
    corner where it was. *)
Lemma fixed_ratio_lost_at_boundary :
  let c := crop (cropRun wideDrag croppingState) in
  crop_x c == 0 /\ crop_y c == 0.1 /\ crop_width c == 1 /\ crop_height c == 0.675 /\
  ~ crop_width c == targetRatio Ratio_16_9 * crop_height c /\
  ~ anchorX resize_br c == anchorX resize_br defaultCrop.
Proof.
  repeat split; try (vm_compute; reflexivity);
    intro H; vm_compute in H; discriminate H.
Qed.

(** The boundary checks keep the size of a rectangle that is at most 1
    wide and 1 high. *)
Lemma boundaryChecks_keeps_size (c : Crop) :
  crop_width c <= 1 ->
  crop_height c <= 1 ->
  crop_width (boundaryChecks c) = crop_width c /\
  crop_height (boundaryChecks c) = crop_height c.
Proof.
  intros Hw Hh. unfold boundaryChecks; simpl.
  split; apply Qmin_left; minmax_cases.
Qed.

(** Where the boundary checks do not interfere, the ratio and the anchor
    are kept, in exact arithmetic: if the rectangle computed before the
    boundary checks is at most 1 wide and 1 high, the resulting rectangle
    has width equal to the target ratio times its height; and if that
    rectangle lies inside the image, the edges opposite the handle (the
    right edge for a left-side handle, else the left edge; the bottom
    edge for a top-side handle, else the top edge) are where they were at
    the start of the interaction. *)
Theorem resize_fixed_ratio (dom : Dom) (e : MouseEvent) (s : State)
    (ci : CropInteraction) (r : DOMRect) :
  cropInteraction s = Some ci ->
  imageRect dom = Some r ->
  isResize (ci_type ci) = true ->
  aspectRatio s <> Free ->
  let resized := resizeCrop (ci_type ci) (startCrop ci) (aspectRatio s)
                   (pointerDx r e ci) (pointerDy r e ci) in
  let c := crop (handleCropMouseMove dom e s) in
  c = boundaryChecks resized /\
  (crop_width resized <= 1 -> crop_height resized <= 1 ->
   crop_width c == targetRatio (aspectRatio s) * crop_height c) /\
  (withinImage resized ->
   anchorX (ci_type ci) c == anchorX (ci_type ci) (startCrop ci) /\
   anchorY (ci_type ci) c == anchorY (ci_type ci) (startCrop ci)).
Proof.
  intros Hci Hr Ht Ha resized c.
  assert (Hc : c = boundaryChecks resized).
  { subst c resized. unfold handleCropMouseMove. rewrite Hci, Hr.
    unfold nextCrop. rewrite startsWith_resize, Ht. reflexivity. }
  split; [exact Hc|]. rewrite Hc. clear c Hc.
  destruct (resizeCrop_fixed_ratio (ci_type ci) (startCrop ci) (aspectRatio s)
              (pointerDx r e ci) (pointerDy r e ci) Ht Ha) as (Hratio & Hax & Hay).
  fold resized in Hratio, Hax, Hay.
  split.
  - intros Hw Hh.
    destruct (boundaryChecks_keeps_size resized Hw Hh) as [-> ->].
    exact Hratio.
  - intro Hin.
    destruct (boundaryChecks_inside _ Hin) as (Ex & Ey & Ew & Eh).
    split.
    + rewrite <- Hax.
      destruct (ci_type ci); unfold anchorX; rewrite ?Ex, ?Ew; reflexivity.
    + rewrite <- Hay.
      destruct (ci_type ci); unfold anchorY; rewrite ?Ey, ?Eh; reflexivity.
Qed.

Lemma resize_fixed_ratio_witness :
  let s := cropRun cornerPress croppingState in
  let c := crop (handleCropMouseMove sampleDom (pointerAt 300 500) s) in
  crop_width c == (4 # 3) * crop_height c /\
  crop_x c + crop_width c == 0.1 + 0.8 /\
  crop_y c + crop_height c == 0.1 + 0.8.
Proof.
  destruct (resize_fixed_ratio sampleDom (pointerAt 300 500)
              (cropRun cornerPress croppingState)
              (mkInteraction resize_tl ((100 - 0) / 1000) ((180 - 100) / 800) defaultCrop)
              (mkRect 0 100 1000 800)
              eq_refl eq_refl eq_refl ltac:(vm_compute; discriminate))
    as (_ & Hratio & Hanchor).
  split.
  - apply Hratio; vm_compute; discriminate.
  - apply Hanchor. vm_compute. repeat split; discriminate.
Defined.

(** ** Rotation *)

(** One quarter turn clockwise on an angle in [0, 360). *)
Lemma quarter_turn (r : Z) :
  (0 <= r < 360)%Z ->
  Z.rem (r + 90 + 360) 360 = (if (r <? 270)%Z then r + 90 else r - 270)%Z.
Proof.
  intro H. rewrite Z.rem_mod_nonneg by lia.
  destruct (Z.ltb_spec r 270).
  - symmetry. apply Z.mod_unique with (q := 1%Z); lia.
  - symmetry. apply Z.mod_unique with (q := 2%Z); lia.
Qed.

(** The rotate buttons keep the angle in [0, 360). *)
Lemma handleRotate_range (degrees : Z) (s : State) :
  (0 <= rotation s < 360)%Z ->
  (degrees = 90 \/ degrees = -90)%Z ->
  (0 <= rotation (handleRotate degrees s) < 360)%Z.
Proof.
  intros H Hd. unfold handleRotate; simpl.
  rewrite Z.rem_mod_nonneg by lia.
  apply Z.mod_pos_bound. lia.
Qed.

(** From the initial state, whatever the sequence of presses on the two
    rotate buttons, the angle is in [0, 360). *)
Lemma rotation_reachable_range (file : File) (presses : list Z) :
  Forall (fun d => d = 90 \/ d = -90)%Z presses ->
  (0 <= rotation (fold_left (fun s d => handleRotate d s) presses (initialState file))
   < 360)%Z.
Proof.
  assert (A : forall s, (0 <= rotation s < 360)%Z ->
              Forall (fun d => d = 90 \/ d = -90)%Z presses ->
              (0 <= rotation (fold_left (fun s d => handleRotate d s) presses s) < 360)%Z).
  { induction presses as [|d ds IH]; intros s Hs Hd; [exact Hs|].
    inversion Hd as [|d' ds' Hd1 Hd2]; subst. simpl.
    apply IH; [|exact Hd2]. apply handleRotate_range; assumption. }
  apply A. simpl. lia.
Qed.

(** C7.  From every angle in [0, 360), which are the angles the rotate
    buttons can produce, four rotations by 90 degrees give back the
    starting state, and with it the canvas the preview effect draws. *)
Theorem four_quarter_turns (s : State) :
  (0 <= rotation s < 360)%Z ->
  let s4 := times 4 (handleRotate 90) s in
  s4 = s /\
  forall env, rotatedImage env (imageFile s4) (rotation s4)
              = rotatedImage env (imageFile s) (rotation s).
Proof.
  intros H s4.
  assert (E : s4 = s).
  { subst s4. destruct s as [f p l er ed sf r b sh sc po pa cr c ci ar].
    simpl in H. unfold times, handleRotate, setRotation; simpl.
    f_equal.
    rewrite (quarter_turn r) by lia.
    destruct (Z.ltb_spec r 270).
    - rewrite (quarter_turn (r + 90)) by lia.
      destruct (Z.ltb_spec (r + 90) 270).
      + rewrite (quarter_turn (r + 90 + 90)) by lia.
        destruct (Z.ltb_spec (r + 90 + 90) 270).
        * rewrite (quarter_turn (r + 90 + 90 + 90)) by lia.
          destruct (Z.ltb_spec (r + 90 + 90 + 90) 270); lia.
        * rewrite (quarter_turn (r + 90 + 90 - 270)) by lia.
          destruct (Z.ltb_spec (r + 90 + 90 - 270) 270); lia.
      + rewrite (quarter_turn (r + 90 - 270)) by lia.
        destruct (Z.ltb_spec (r + 90 - 270) 270); [|lia].
        rewrite (quarter_turn (r + 90 - 270 + 90)) by lia.
        destruct (Z.ltb_spec (r + 90 - 270 + 90) 270); lia.
    - rewrite (quarter_turn (r - 270)) by lia.
      destruct (Z.ltb_spec (r - 270) 270); [|lia].
      rewrite (quarter_turn (r - 270 + 90)) by lia.
      destruct (Z.ltb_spec (r - 270 + 90) 270); [|lia].
      rewrite (quarter_turn (r - 270 + 90 + 90)) by lia.
      destruct (Z.ltb_spec (r - 270 + 90 + 90) 270); lia. }
  split; [exact E|]. intro env. rewrite E. reflexivity.
Qed.

Lemma four_quarter_turns_witness :
  times 4 (handleRotate 90) (handleRotate 90 (initialState sampleFile))
  = handleRotate 90 (initialState sampleFile).
Proof.
  exact (proj1 (four_quarter_turns (handleRotate 90 (initialState sampleFile))
                  ltac:(vm_compute; split; [discriminate | reflexivity]))).
Defined.

(** The successive angles from the initial state. *)
Example quarter_turns_from_zero :
  map (fun n => rotation (times n (handleRotate 90) (initialState sampleFile)))
      [1; 2; 3; 4]%nat
  = [90; 180; 270; 0]%Z.
Proof. reflexivity. Qed.

(** ** Pan and zoom *)

(** Without a container element the wheel handler does nothing. *)
Lemma handleWheel_no_container (dom : Dom) (e : WheelEvent) (s : State) :
  containerRect dom = None -> handleWheel dom e s = s.
Proof. intro H. unfold handleWheel. rewrite H. reflexivity. Qed.

(** Every handler that writes the scale leaves it in [0.5, 5]. *)
Lemma scale_range_kept (s : State) :
  0.5 <= scale s <= 5 ->
  (forall dom e, 0.5 <= scale (handleWheel dom e s) <= 5) /\
  (forall d, 0.5 <= scale (handleZoomAction d s) <= 5) /\
  0.5 <= scale (handleResetView s) <= 5 /\
  (forall f, 0.5 <= scale (onSetNewOriginal f s) <= 5).
Proof.
  intro H. repeat split; intros; unfold handleWheel, handleZoomAction;
    try destruct (containerRect dom); simpl; try lra; minmax_cases.
Qed.

(** C8.  A wheel step is meant to zoom about the cursor: the image point
    under the cursor should still be under it afterwards.  The handler
    measures the cursor from the container's top-left corner and computes
    the new offset as if the image were scaled about that corner, while
    the block is centred in the container and scaled about its own
    centre.  In a fresh editor on the sample photograph, in a container
    of 1000 by 1000 pixels, the cursor at (400, 300) is over the image
    point 100 pixels left of and 200 pixels above the image's centre.
    One wheel step in raises the scale, within [0.5, 5], and afterwards
    that point is on screen near (350, 250), some 50 pixels up and left
    of the cursor. *)
Theorem wheel_moves_point_under_cursor :
  let s := initialState sampleFile in
  let s' := handleWheel sampleDom (mkWheel (-100) 400 300) s in
  onScreen 1000 (pos_x (position s)) (scale s) (-100) == 400 /\
  onScreen 1000 (pos_y (position s)) (scale s) (-200) == 300 /\
  scale s < scale s' /\ 0.5 <= scale s' /\ scale s' <= 5 /\
  349 < onScreen 1000 (pos_x (position s')) (scale s') (-100) /\
  onScreen 1000 (pos_x (position s')) (scale s') (-100) < 351 /\
  249 < onScreen 1000 (pos_y (position s')) (scale s') (-200) /\
  onScreen 1000 (pos_y (position s')) (scale s') (-200) < 251.
Proof.
  repeat split; try (vm_compute; reflexivity); vm_compute; discriminate.
Qed.

(** The same for every state, container and cursor, in exact arithmetic:
    the image point under the cursor before a wheel event is, after it,
    off the cursor by half the container's size times
    [1 - newScale / scale], along each axis. *)
Lemma wheel_anchor_shift (dom : Dom) (e : WheelEvent) (s : State) (rect : DOMRect)
    (u v : Q) :
  containerRect dom = Some rect ->
  ~ scale s == 0 ->
  let s' := handleWheel dom e s in
  let mouseX := wheel_clientX e - rect_left rect in
  let mouseY := wheel_clientY e - rect_top rect in
  onScreen (rect_width rect) (pos_x (position s)) (scale s) u == mouseX ->
  onScreen (rect_height rect) (pos_y (position s)) (scale s) v == mouseY ->
  onScreen (rect_width rect) (pos_x (position s')) (scale s') u
  == mouseX + (1 - scale s' / scale s) * (rect_width rect / 2) /\
  onScreen (rect_height rect) (pos_y (position s')) (scale s') v
  == mouseY + (1 - scale s' / scale s) * (rect_height rect / 2).
Proof.
  intros Hrect Hscale s' mouseX mouseY. subst s'.
  unfold handleWheel. rewrite Hrect. simpl. fold mouseX mouseY.
  set (c := Qmin (Qmax 0.5 _) 5). clearbody c.
  unfold onScreen. intros Hx Hy.
  split.
  - rewrite <- Hx. field. exact Hscale.
  - rewrite <- Hy. field. exact Hscale.
Qed.

(** What the update does keep, in exact arithmetic.  With the container
    mounted, the wheel handler sets the scale to the old scale times 1.1
    (wheel up) or divided by 1.1, clamped to [0.5, 5], sets each
    coordinate of the offset to
    [cursor - (cursor - offset) * (newScale / scale)], and changes
    nothing else.  Whenever [offset + scale * p] is the cursor before the
    event, [newOffset + newScale * p] is the cursor after it, also when
    the scale was clamped: the update would anchor the zoom at the cursor
    if the image were scaled about the container's top-left corner.  The
    scale is never 0: it starts at 1 and is only written clamped. *)
Lemma wheel_zoom_anchored (dom : Dom) (e : WheelEvent) (s : State) (rect : DOMRect) :
  containerRect dom = Some rect ->
  ~ scale s == 0 ->
  let s' := handleWheel dom e s in
  let mouseX := wheel_clientX e - rect_left rect in
  let mouseY := wheel_clientY e - rect_top rect in
  let newScale := if Qltb (deltaY e) 0 then scale s * 1.1 else scale s / 1.1 in
  scale s' = Qmin (Qmax 0.5 newScale) 5 /\
  0.5 <= scale s' /\ scale s' <= 5 /\
  s' = setPosition
         (mkPosition
            (mouseX - (mouseX - pos_x (position s)) * (scale s' / scale s))
            (mouseY - (mouseY - pos_y (position s)) * (scale s' / scale s)))
         (setScale (scale s') s) /\
  forall px py,
    pos_x (position s) + scale s * px == mouseX ->
    pos_y (position s) + scale s * py == mouseY ->
    pos_x (position s') + scale s' * px == mouseX /\
    pos_y (position s') + scale s' * py == mouseY.
Proof.
  intros Hrect Hscale s' mouseX mouseY newScale.
  subst s'. unfold handleWheel. rewrite Hrect. simpl.
  fold mouseX mouseY newScale.
  split; [reflexivity|].
  split; [minmax_cases|]. split; [minmax_cases|].
  split; [reflexivity|].
  intros px py Hx Hy.
  set (c := Qmin (Qmax 0.5 newScale) 5).
  split.
  - rewrite <- Hx. field. exact Hscale.
  - rewrite <- Hy. field. exact Hscale.
Qed.

(** In the arithmetic of the source that identity holds up to rounding
    only.  After two clicks on zoom in the scale is 1.44; with the offset
    at 40 and the cursor 5 pixels from the container's left edge, the
    number p = (5 - 40) / 1.44 satisfies 40 + 1.44 * p = 5 in binary64.
    A wheel step in sets the scale to 1.584 and the offset to 43.5, and
    43.5 + 1.584 * p is 4.999999999999993, not 5. *)
Lemma wheel_identity_rounded :
  let scale := Double.zoomIn (Double.zoomIn 1) in
  let position := 40%float in
  let mouse := 5%float in
  let p := ((mouse - position) / scale)%float in
  let newScale := Double.wheelScale scale (-100) in
  let newPosition := Double.wheelOffset mouse position scale newScale in
  (scale =? 1.44)%float = true /\
  (position + scale * p =? mouse)%float = true /\
  (newScale =? 1.584)%float = true /\
  (newPosition =? 43.5)%float = true /\
  (newPosition + newScale * p =? mouse)%float = false /\
  (newPosition + newScale * p =? 4.999999999999993)%float = true.
Proof. vm_compute. repeat split; reflexivity. Qed.

(** ** Applying the crop *)

Lemma integer_value (q : Q) (z : Z) :
  q == inject_Z z -> isInteger q = true /\ Qfloor q = z.
Proof.
  intro H.
  assert (F : Qfloor q = z) by (rewrite H; apply Qfloor_Z).
  split; [|exact F].
  unfold isInteger. rewrite F. apply Qeq_bool_iff. symmetry. exact H.
Qed.

Lemma toUnsignedLong_value (q : Q) (z : Z) :
  q == inject_Z z -> (0 <= z < 2 ^ 32)%Z -> toUnsignedLong q = z.
Proof.
  intros H Hz. unfold toUnsignedLong, truncate.
  assert (E : Qltb q 0 = false).
  { apply Qltb_false. rewrite H. change 0 with (inject_Z 0).
    rewrite <- Zle_Qle. lia. }
  rewrite E. destruct (integer_value q z H) as [_ ->].
  apply Z.mod_small. exact Hz.
Qed.

(** C3.  With the crop rectangle {x: 0.25, y: 0.25, width: 0.5, height:
    0.5} on a working image of 1000 by 800 pixels, in a browser that
    yields a canvas context and a blob, [handleApplyCrop] makes the
    working image a new PNG file of exactly 500 by 400 pixels whose pixel
    at column i and row j is the source pixel at column 250 + i and row
    200 + j, and leaves crop mode. *)
Theorem apply_crop_quarter (env : Env) (s : State) (image : Raster) :
  file_image (imageFile s) = Some image ->
  raster_width image = 1000%Z ->
  raster_height image = 800%Z ->
  crop_x (crop s) == 0.25 ->
  crop_y (crop s) == 0.25 ->
  crop_width (crop s) == 0.5 ->
  crop_height (crop s) == 0.5 ->
  getContext2d env = true ->
  toBlobSucceeds env = true ->
  let s' := handleApplyCrop env s in
  exists out : Raster,
    imageFile s' = mkFile ("cropped-" ++ file_name (imageFile s)) "image/png" (Some out) /\
    raster_width out = 500%Z /\
    raster_height out = 400%Z /\
    (forall i j, (0 <= i < 500)%Z -> (0 <= j < 400)%Z ->
       raster_pixel out i j = raster_pixel image (250 + i) (200 + j)) /\
    isCropping s' = false.
Proof.
  intros Himg Hw Hh Hcx Hcy Hcw Hch Hctx Hblob s'.
  subst s'. unfold handleApplyCrop. rewrite Himg, Hctx, Hblob. cbn [negb].
  rewrite Hw, Hh.
  set (cropX := crop_x (crop s) * inject_Z 1000).
  set (cropY := crop_y (crop s) * inject_Z 800).
  set (cropWidth := crop_width (crop s) * inject_Z 1000).
  set (cropHeight := crop_height (crop s) * inject_Z 800).
  assert (EX : cropX == inject_Z 250) by (subst cropX; rewrite Hcx; reflexivity).
  assert (EY : cropY == inject_Z 200) by (subst cropY; rewrite Hcy; reflexivity).
  assert (EW : cropWidth == inject_Z 500) by (subst cropWidth; rewrite Hcw; reflexivity).
  assert (EH : cropHeight == inject_Z 400) by (subst cropHeight; rewrite Hch; reflexivity).
  destruct (integer_value _ _ EX) as [IX FX].
  destruct (integer_value _ _ EY) as [IY FY].
  destruct (integer_value _ _ EW) as [IW FW].
  destruct (integer_value _ _ EH) as [IH FH].
  assert (UW : toUnsignedLong cropWidth = 500%Z)
    by (apply toUnsignedLong_value; [exact EW | lia]).
  assert (UH : toUnsignedLong cropHeight = 400%Z)
    by (apply toUnsignedLong_value; [exact EH | lia]).
  eexists. split; [reflexivity|].
  unfold drawImage; cbn [raster_width raster_height raster_pixel].
  split; [exact UW|]. split; [exact UH|]. split; [|reflexivity].
  intros i j Hi Hj.
  rewrite UW, UH, IX, IY, IW, IH, FX, FY, FW, FH, Hw, Hh.
  rewrite !Qeq_bool_refl.
  change (isInteger 0) with true. change (Qfloor 0) with 0%Z.
  cbn [andb].
  replace (0 <=? i)%Z with true by (symmetry; apply Z.leb_le; lia).
  replace (0 <=? j)%Z with true by (symmetry; apply Z.leb_le; lia).
  replace (i <? 500)%Z with true by (symmetry; apply Z.ltb_lt; lia).
  replace (j <? 400)%Z with true by (symmetry; apply Z.ltb_lt; lia).
  replace (i <? 0 + 500)%Z with true by (symmetry; apply Z.ltb_lt; lia).
  replace (j <? 0 + 400)%Z with true by (symmetry; apply Z.ltb_lt; lia).
  replace (0 <=? i - 0 + 250)%Z with true by (symmetry; apply Z.leb_le; lia).
  replace (0 <=? j - 0 + 200)%Z with true by (symmetry; apply Z.leb_le; lia).
  replace (i - 0 + 250 <? 1000)%Z with true by (symmetry; apply Z.ltb_lt; lia).
  replace (j - 0 + 200 <? 800)%Z with true by (symmetry; apply Z.ltb_lt; lia).
  cbn [andb negb]. f_equal; lia.
Qed.

Lemma apply_crop_quarter_witness :
  let s' := handleApplyCrop sampleEnv quarterCropState in
  exists out : Raster,
    imageFile s' = mkFile "cropped-photo.jpg" "image/png" (Some out) /\
    raster_width out = 500%Z /\
    raster_height out = 400%Z /\
    (forall i j, (0 <= i < 500)%Z -> (0 <= j < 400)%Z ->
       raster_pixel out i j = raster_pixel sampleImage (250 + i) (200 + j)) /\
    isCropping s' = false.
Proof.
  exact (apply_crop_quarter sampleEnv quarterCropState sampleImage
           eq_refl eq_refl eq_refl
           ltac:(reflexivity) ltac:(reflexivity) ltac:(reflexivity) ltac:(reflexivity)
           eq_refl eq_refl).
Defined.

(** The top-left pixel of the cropped sample is the source pixel at
    column 250, row 200; the transform state is back at its defaults. *)
Example apply_crop_sample_pixel :
  let s' := handleApplyCrop sampleEnv quarterCropState in
  option_map (fun out => raster_pixel out 0 0) (file_image (imageFile s'))
  = Some (RGBA 250 200 194 255) /\
  crop_x (crop s') == 0.1 /\ rotation s' = 0%Z.
Proof. repeat split; vm_compute; reflexivity. Qed.

(** ** Submission *)

(** C4.  While a submission is in flight ([isLoading]) or when the prompt
    is empty or white space only, [handleSubmit] prevents the event's
    default action and returns: the state is untouched, no raster is
    made, the adapter is not called and no request reaches the
    service. *)
Theorem submit_guard (env : Env) (s : State) :
  isLoading s = true \/ JS.whitespaceOnly (prompt s) = true ->
  let r := handleSubmit env s in
  r = mkRun s true None true /\
  final r = s /\
  rasterCallsOf r = [] /\ adapterCallsOf r = [] /\ requestsOf r = [].
Proof.
  intros H r.
  assert (G : submitRejected s = true).
  { unfold submitRejected. destruct H as [H|H].
    - rewrite H. apply orb_true_r.
    - apply trim_empty_iff in H. rewrite H. reflexivity. }
  subst r. unfold handleSubmit. rewrite G.
  repeat split; reflexivity.
Qed.

(** The guard lets through exactly the states that are idle and have a
    prompt with a character that is not white space. *)
Lemma submitRejected_false (s : State) :
  submitRejected s = false <->
  isLoading s = false /\ JS.whitespaceOnly (prompt s) = false.
Proof.
  unfold submitRejected. rewrite orb_false_iff, negb_false_iff.
  split; intros [A B]; split; auto.
  - destruct (JS.whitespaceOnly (prompt s)) eqn:E; [|reflexivity].
    apply trim_empty_iff in E. rewrite E in A. discriminate A.
  - destruct (JS.trim (prompt s)) eqn:E; [|reflexivity].
    assert (T : JS.trim (prompt s) = "") by exact E.
    apply trim_empty_iff in T. congruence.
Qed.

Lemma submit_guard_witness :
  let r := handleSubmit sampleEnv (setPrompt "  " (initialState sampleFile)) in
  r = mkRun (setPrompt "  " (initialState sampleFile)) true None true /\
  final r = setPrompt "  " (initialState sampleFile) /\
  rasterCallsOf r = [] /\ adapterCallsOf r = [] /\ requestsOf r = [].
Proof.
  exact (submit_guard sampleEnv (setPrompt "  " (initialState sampleFile))
           (or_intror eq_refl)).
Defined.

(** While the first submission's request is outstanding the state has
    [isLoading] set, so a second submission is turned away. *)
Example second_submission_in_flight :
  let inFlight := setEditedImage None (setError None (setIsLoading true promptedState)) in
  requestsOf (handleSubmit sampleEnv inFlight) = [] /\
  final (handleSubmit sampleEnv inFlight) = inFlight.
Proof. split; reflexivity. Qed.

(** Every value the adapter's [catch] clause throws carries a message. *)
Lemma rethrow_message (error : Thrown) :
  exists m, rethrow error = ErrorObject ("Failed to edit image: " ++ m).
Proof. destruct error; eexists; reflexivity. Qed.

(** Whatever makes the [try] block of [handleSubmit] fail, the message
    shown for it is not empty. *)
Lemma tryBlock_failure_message (env : Env) (s : State) (err : Thrown) :
  outcome (tryBlock env s) = Rejected err -> messageOf err <> "".
Proof.
  assert (A : forall f p e,
             fst (editImageWithGemini env f p) = Rejected e -> messageOf e <> "").
  { intros f p e. unfold editImageWithGemini, fileToBase64.
    destruct (credentialMissing env); [simpl; intro H; inversion H; discriminate|].
    destruct (readAsDataURL env f); [|simpl; intro H; inversion H; discriminate].
    match goal with
    | |- context [generateContent env ?q] => destruct (generateContent env q) as [resp|er|]
    end.
    - destruct (readResponse env resp) as [ok|er]; simpl; intro H; inversion H.
      destruct (rethrow_message er) as [m ->]. discriminate.
    - simpl; intro H; inversion H.
      destruct (rethrow_message er) as [m ->]. discriminate.
    - simpl; discriminate. }
  unfold tryBlock.
  destruct (transformActive s).
  - unfold applyTransformationsAndGetFile.
    destruct (file_image (imageFile s)); [|simpl; discriminate].
    destruct (getContext2d env); cbn [negb];
      [|simpl; intro H; inversion H; discriminate].
    destruct (toBlobSucceeds env); cbn [negb];
      [|simpl; intro H; inversion H; discriminate].
    match goal with
    | |- context [editImageWithGemini env ?f ?p] =>
        specialize (A f p err); destruct (editImageWithGemini env f p)
    end.
    exact A.
  - specialize (A (imageFile s) (prompt s) err).
    destruct (editImageWithGemini env (imageFile s) (prompt s)).
    exact A.
Qed.

(** C5.  When an accepted submission fails (the [try] block of
    [handleSubmit] ends with a throw, from the raster step or from the
    adapter), the handler runs to its end and leaves the state it started
    from with the edited result cleared and a non-empty error message
    set: the working image file, rotation, selected filter, blur, sharpen
    and crop rectangle are those from before the submission. *)
Theorem failed_submission (env : Env) (s : State) (err : Thrown) :
  submitRejected s = false ->
  outcome (tryBlock env s) = Rejected err ->
  let r := handleSubmit env s in
  let s' := final r in
  completed r = true /\
  s' = setError (Some (messageOf err)) (setEditedImage None s) /\
  editedImage s' = None /\
  error s' = Some (messageOf err) /\ messageOf err <> "" /\
  isLoading s' = false /\
  imageFile s' = imageFile s /\ rotation s' = rotation s /\
  selectedFilter s' = selectedFilter s /\ blur s' = blur s /\
  sharpen s' = sharpen s /\ crop s' = crop s.
Proof.
  intros G Hfail r s'.
  pose proof (tryBlock_failure_message env s err Hfail) as Hmsg.
  destruct (proj1 (submitRejected_false s) G) as [Hidle _].
  subst s' r. unfold handleSubmit. rewrite G, Hfail.
  cbn [settle isSettled final completed].
  destruct s as [f p l er ed sf ro b sh sc po pa cr c ci ar].
  simpl in Hidle. subst l.
  repeat split; try reflexivity. exact Hmsg.
Qed.

Lemma failed_submission_witness :
  let r := handleSubmit offlineEnv resubmitState in
  editedImage (final r) = None /\
  error (final r) = Some "Failed to edit image: fetch failed" /\
  crop (final r) = crop resubmitState.
Proof.
  destruct (failed_submission offlineEnv resubmitState
              (ErrorObject "Failed to edit image: fetch failed") eq_refl eq_refl)
    as (_ & _ & He & Hm & _ & _ & _ & _ & _ & _ & _ & Hc).
  exact (conj He (conj Hm Hc)).
Defined.









(** The rasteriser of [tracingEnv] records the composite and the rotation
    in the file that is sent: 36 is the length of
    ["sepia(100%) blur(2px) contrast(125%)"]. *)
Example submission_trace :
  map (fun call =>
         match file_image (fst call) with
         | Some baked =>
             match raster_pixel baked 0 0 with
             | RGBA r g _ _ => Some (raster_width baked, raster_height baked, r, g)
             end
         | None => None
         end)
      (adapterCallsOf (handleSubmit tracingEnv fullyAdjustedState))
  = [Some (800, 1000, 36, 90)%Z].
Proof. reflexivity. Qed.

(** With nothing selected the original file itself is passed on. *)
Example submission_untransformed :
  adapterCallsOf (handleSubmit sampleEnv promptedState) = [(sampleFile, "Add a hat")] /\
  rasterCallsOf (handleSubmit sampleEnv promptedState) = [].
Proof. split; reflexivity. Qed.

(** The composite filter for each combination of the three controls. *)
Example fullFilter_samples :
  fullFilter "grayscale(100%)" 4 0 = "grayscale(100%) blur(4px)" /\
  fullFilter "none" 0 25 = "contrast(125%)" /\
  fullFilter "sepia(100%)" 10 100 = "sepia(100%) blur(10px) contrast(200%)" /\
  fullFilter "none" 0 0 = "".
Proof. repeat split; reflexivity. Qed.

(** ** The credential *)

(** The raster step rejects with one of its two messages only. *)
Lemma applyTransformations_failure_message (env : Env) (file : File)
    (filterStyle : string) (rotationAngle blurValue sharpenValue : Z) (err : Thrown) :
  applyTransformationsAndGetFile env file filterStyle rotationAngle blurValue sharpenValue
  = Rejected err ->
  err = ErrorObject "Could not get canvas context" \/
  err = ErrorObject "Canvas to Blob conversion failed".
Proof.
  unfold applyTransformationsAndGetFile.
  destruct (file_image file); [|discriminate].
  destruct (getContext2d env); cbn [negb]; [|intro H; inversion H; auto].
  destruct (toBlobSucceeds env); cbn [negb]; [discriminate|].
  intro H; inversion H; auto.
Qed.

(** C9.  Without the credential ([process.env.API_KEY] undefined or
    empty), every call of [editImageWithGemini] is rejected with the
    message about the missing variable and sends no request; and every
    accepted submission sends no request, shows no result and, when the
    handler runs to its end, leaves a non-empty error message. *)
Theorem missing_credential_fatal (env : Env) :
  credentialMissing env = true ->
  (forall imageFile prompt,
     editImageWithGemini env imageFile prompt
     = (Rejected (ErrorObject "API_KEY environment variable is not set."), [])) /\
  (forall s,
     submitRejected s = false ->
     let r := handleSubmit env s in
     requestsOf r = [] /\
     editedImage (final r) = None /\
     (completed r = true ->
      exists m, error (final r) = Some m /\ m <> "" /\ isLoading (final r) = false)).
Proof.
  intro Hkey.
  assert (A : forall imageFile prompt,
             editImageWithGemini env imageFile prompt
             = (Rejected (ErrorObject "API_KEY environment variable is not set."), [])).
  { intros f p. unfold editImageWithGemini. rewrite Hkey. reflexivity. }
  split; [exact A|].
  intros s G r. subst r.
  unfold handleSubmit, requestsOf. rewrite G. cbn [attempt final completed].
  unfold tryBlock.
  destruct (transformActive s).
  - destruct (applyTransformationsAndGetFile env (imageFile s) (filterStyleOf s)
                (rotation s) (blur s) (sharpen s)) as [f|err|] eqn:E.
    + rewrite A. cbn. repeat split. intros _. eexists. repeat split. discriminate.
    + cbn. repeat split. intros _. eexists. repeat split.
      destruct (applyTransformations_failure_message _ _ _ _ _ _ _ E) as [-> | ->];
        discriminate.
    + cbn. repeat split. discriminate.
  - rewrite A. cbn. repeat split. intros _. eexists. repeat split. discriminate.
Qed.

Lemma missing_credential_fatal_witness :
  editImageWithGemini noKeyEnv sampleFile "Add a hat"
  = (Rejected (ErrorObject "API_KEY environment variable is not set."), []) /\
  requestsOf (handleSubmit noKeyEnv promptedState) = [] /\
  error (final (handleSubmit noKeyEnv promptedState))
  = Some "API_KEY environment variable is not set.".
Proof.
  destruct (missing_credential_fatal noKeyEnv eq_refl) as [Hcall Hsubmit].
  split; [apply Hcall|].
  split; [apply (Hsubmit promptedState eq_refl)|].
  reflexivity.
Defined.

(** With the credential present the same submission reaches the service
    once, with the file's base64 payload, its MIME type and the prompt. *)
Example submission_with_credential :
  requestsOf (handleSubmit sampleEnv promptedState)
  = [mkRequest "secret" "gemini-2.5-flash-image-preview"
       (Some "/9j/4AAQSkZJRg==") "image/jpeg" "Add a hat" [IMAGE; TEXT]] /\
  editedImage (final (handleSubmit sampleEnv promptedState))
  = Some (mkEdited "data:image/png;base64,iVBORw0KGgo=" "A hat was added.").
Proof. split; reflexivity. Qed.

(* ================================================================== *)
(** * Part III: further properties of the component *)
(* ================================================================== *)

(** ** Shapes of the results of the asynchronous handlers *)

(** [handleSubmit] writes [isLoading], [error] and [editedImage] only. *)
Lemma handleSubmit_final_shape (env : Env) (s : State) :
  final (handleSubmit env s) = s \/
  exists l er ed,
    final (handleSubmit env s) = setIsLoading l (setError er (setEditedImage ed s)).
Proof.
  unfold handleSubmit. destruct (submitRejected s); [left; reflexivity|].
  right. cbn [final].
  destruct (outcome (tryBlock env s)) as [edited|err|]; cbn [settle].
  - exists false, None, (Some edited). destruct s; reflexivity.
  - exists false, (Some (messageOf err)), None. destruct s; reflexivity.
  - exists true, None, None. destruct s; reflexivity.
Qed.

(** [handleApplyCrop] does nothing or installs a new working image. *)
Lemma handleApplyCrop_shape (env : Env) (s : State) :
  handleApplyCrop env s = s \/
  exists f, handleApplyCrop env s = setIsCropping false (onSetNewOriginal f s).
Proof.
  unfold handleApplyCrop.
  destruct (file_image (imageFile s)); [|left; reflexivity].
  destruct (getContext2d env); cbn [negb]; [|left; reflexivity].
  destruct (toBlobSucceeds env); cbn [negb]; [|left; reflexivity].
  right. eexists. reflexivity.
Qed.

(** [handleUseAsOriginal] does nothing, installs a new working image, or
    sets an error message. *)
Lemma handleUseAsOriginal_shape (fetchBlob : string -> Settled Blob) (now : Z)
    (s : State) :
  handleUseAsOriginal fetchBlob now s = s \/
  (exists f, handleUseAsOriginal fetchBlob now s = onSetNewOriginal f s) \/
  (exists m, handleUseAsOriginal fetchBlob now s = setError (Some m) s).
Proof.
  unfold handleUseAsOriginal.
  destruct (editedImage s) as [edited|]; [|left; reflexivity].
  destruct (JS.truthy (imageUrl edited)); cbn [negb]; [|left; reflexivity].
  destruct (fetchBlob (imageUrl edited)) as [blob|err|].
  - right. left. eexists. reflexivity.
  - right. right. eexists. reflexivity.
  - left. reflexivity.
Qed.

(** A property kept by every step from a state that has it holds after
    every sequence of events. *)
Lemma uiRun_invariant (env : Env) (P : State -> Prop) (Q : Event -> Prop) :
  (forall s ev, Q ev -> P s -> P (uiStep env s ev)) ->
  forall evs s, Forall Q evs -> P s -> P (uiRun env evs s).
Proof.
  intros Hstep evs. induction evs as [|ev evs IH]; intros s Hq Hp; [exact Hp|].
  inversion Hq as [|ev' evs' Hev Hrest]; subst.
  unfold uiRun in *. simpl. apply IH; [exact Hrest|]. apply Hstep; assumption.
Qed.

Lemma Forall_True {A : Type} (l : list A) : Forall (fun _ => True) l.
Proof. induction l; constructor; auto. Qed.

(** Split a step into the cases of the handler it reaches. *)
Ltac step_cases env s ev :=
  destruct ev as [dom e|e|dom e| | |dom e t|d| |ar| | | |b|v|v|n|value|n| | |fetchBlob now];
  cbn [uiStep];
  repeat match goal with
  | |- context [if isCropping s then _ else _] => destruct (isCropping s) eqn:?
  | |- context [if isLoading s then _ else _] => destruct (isLoading s) eqn:?
  | |- context [match editedImage s with _ => _ end] => destruct (editedImage s) eqn:?
  | |- context [match error s with _ => _ end] => destruct (error s) eqn:?
  | |- context [match nth_error ?l ?n with _ => _ end] => destruct (nth_error l n) eqn:?
  | |- context [if JS.truthy ?m then _ else _] => destruct (JS.truthy m) eqn:?
  | |- context [final (handleSubmit env s)] =>
      let H := fresh "Hs" in
      destruct (handleSubmit_final_shape env s) as [H|(?l & ?er & ?ed & H)];
      rewrite H
  | |- context [handleApplyCrop env s] =>
      let H := fresh "Hs" in
      destruct (handleApplyCrop_shape env s) as [H|(?f & H)];
      rewrite H
  | |- context [handleUseAsOriginal ?fb ?nw s] =>
      let H := fresh "Hs" in
      destruct (handleUseAsOriginal_shape fb nw s) as [H|[(?f & H)|(?m & H)]];
      rewrite H
  end.

(** Open the synchronous handlers of a step down to the field updates. *)
Ltac open_handlers :=
  unfold handleWheel, handleMouseDown, handleMouseMove, handleMouseUp,
    handleMouseLeave, handleCropMouseDown, handleCropMouseMove,
    handleCropMouseUp, handleCancelCrop, handleZoomAction, handleResetView,
    handleRotate, handleExamplePrompt, onSetNewOriginal, resetOnImageFile;
  repeat match goal with
  | |- context [match ?x with _ => _ end] => destruct x eqn:?
  end.

(** ** Invariants of the whole component *)

(** X1.  Whatever the user does, starting from a freshly mounted editor,
    the zoom scale stays between 0.5 and 5. *)
Theorem ui_scale_in_range (env : Env) (file : File) (evs : list Event) :
  0.5 <= scale (uiRun env evs (initialState file)) <= 5.
Proof.
  apply (uiRun_invariant env (fun s => 0.5 <= scale s <= 5) (fun _ => True)).
  - intros s ev _ H. step_cases env s ev; open_handlers; simpl;
      try exact H; try (split; minmax_cases); try (split; lra).
  - apply Forall_True.
  - simpl. lra.
Qed.

(** X2.  Whatever the user does, starting from a freshly mounted editor,
    the rotation is 0, 90, 180 or 270 degrees: the angles for which the
    canvas sides are either kept or swapped. *)
Theorem ui_rotation_right_angle (env : Env) (file : File) (evs : list Event) :
  rightAngle (rotation (uiRun env evs (initialState file))).
Proof.
  apply (uiRun_invariant env (fun s => rightAngle (rotation s)) (fun _ => True)).
  - intros s ev _ H. step_cases env s ev; open_handlers; simpl;
      try exact H; try (left; reflexivity);
      unfold rightAngle in *;
      destruct H as [-> |[-> |[-> | ->]]]; vm_compute; tauto.
  - apply Forall_True.
  - left. reflexivity.
Qed.

(** X3.  Whatever the user does, in whatever ratio mode, starting from a
    freshly mounted editor, the crop rectangle lies inside the image:
    0 <= x, 0 <= y, x + width <= 1 and y + height <= 1. *)
Theorem ui_crop_within_image (env : Env) (file : File) (evs : list Event) :
  withinImage (crop (uiRun env evs (initialState file))).
Proof.
  apply (uiRun_invariant env (fun s => withinImage (crop s)) (fun _ => True)).
  - assert (D : withinImage defaultCrop)
      by (unfold withinImage; simpl; repeat split; lra).
    intros s ev _ H. step_cases env s ev; open_handlers; simpl;
      try exact H; try exact D.
    apply boundaryChecks_withinImage.
  - apply Forall_True.
  - unfold withinImage; simpl; repeat split; lra.
Qed.

Lemma rangeValue_bounds (min max v : Z) :
  (min <= max)%Z -> (min <= rangeValue min max v <= max)%Z.
Proof. unfold rangeValue. lia. Qed.

(** X4.  Whatever the user does, starting from a freshly mounted editor,
    the selected filter is one of the five presets, the blur is between 0
    and 10 and the sharpen value between 0 and 100; in particular the
    tests [blur > 0] and [sharpen > 0] of the submission are tests for a
    value other than 0. *)
Theorem ui_controls_valid (env : Env) (file : File) (evs : list Event) :
  let s := uiRun env evs (initialState file) in
  controlsValid s /\ controlsInRange s.
Proof.
  assert (A : controlsValid (uiRun env evs (initialState file))).
  { apply (uiRun_invariant env controlsValid (fun _ => True)).
    - assert (D : In "None" (map fst filters)) by (left; reflexivity).
      intros s ev _ H. unfold controlsValid in *.
      step_cases env s ev; open_handlers; simpl;
        try exact H; try (repeat split; try exact D; lia).
      + split; [apply H|]. split; [apply rangeValue_bounds; lia | apply H].
      + split; [apply H|]. split; [apply H | apply rangeValue_bounds; lia].
      + split; [|apply H].
        match goal with
        | E : nth_error filters ?k = Some ?q |- _ =>
            exact (in_map fst filters q (nth_error_In filters k E))
        end.
    - apply Forall_True.
    - unfold controlsValid. simpl. repeat split; try lia. left. reflexivity. }
  intro s. subst s. split; [exact A|].
  destruct A as (Hf & Hb & Hs). unfold controlsInRange.
  split; [exact Hf|]. split; lia.
Qed.

(** X5.  As long as no fixed ratio is selected, whatever else the user
    does, starting from a freshly mounted editor, both sides of the crop
    rectangle are 0.05 or more. *)
Theorem ui_free_ratio_min_size (env : Env) (file : File) (evs : list Event) :
  Forall leavesRatioFree evs ->
  atLeastMinSize (crop (uiRun env evs (initialState file))).
Proof.
  intro Hevs.
  set (P := fun s : State =>
              aspectRatio s = Free /\ atLeastMinSize (crop s) /\
              forall ci, cropInteraction s = Some ci -> atLeastMinSize (startCrop ci)).
  assert (A : P (uiRun env evs (initialState file))).
  { assert (D : atLeastMinSize defaultCrop)
      by (unfold atLeastMinSize, minSize; simpl; split; lra).
    apply (uiRun_invariant env P leavesRatioFree); [|exact Hevs|].
    - intros s ev Hev (Hfree & Hmin & Hstart). unfold P.
      step_cases env s ev; open_handlers; simpl;
        (split; [first [assumption | exact Hev | reflexivity]|]);
        (split;
         [first [assumption | exact D
                | rewrite Hfree; apply nextCrop_Free_invariant; right;
                  apply Hstart; reflexivity]
         |first [assumption | discriminate
                | intros ci Hci; apply Hstart; congruence
                | intros ci Hci; inversion Hci; simpl; exact Hmin]]).
    - unfold P. simpl. split; [reflexivity|]. split; [exact D|]. discriminate. }
  apply A.
Qed.

Lemma ui_free_ratio_min_size_witness :
  atLeastMinSize (crop (uiRun sampleEnv freeSession (initialState sampleFile))).
Proof.
  apply (ui_free_ratio_min_size sampleEnv sampleFile freeSession).
  repeat constructor.
Defined.

(** ** More on the crop geometry *)

(** The boundary checks keep lower bounds on the sides, as long as the
    bounds are at most 1. *)
Lemma boundaryChecks_floor (c : Crop) (mw mh : Q) :
  mw <= 1 -> mh <= 1 ->
  mw <= crop_width c -> mh <= crop_height c ->
  mw <= crop_width (boundaryChecks c) /\ mh <= crop_height (boundaryChecks c).
Proof.
  unfold boundaryChecks; simpl. intros Hmw Hmh Hw Hh. split; minmax_cases.
Qed.

(** Turn the divisions by a literal into multiplications. *)
Ltac divide_by_literals :=
  repeat match goal with
  | |- context [?x / ?c] =>
      let c' := eval vm_compute in (/ c) in
      change (x / c) with (x * c')
  end.

(** In every ratio mode a resize leaves a width of 0.05 or more; the
    height is only bounded by 0.05 divided by the ratio. *)
Lemma resizeCrop_floor (t : CropType) (sc : Crop) (a : AspectRatio) (dx dy : Q) :
  isResize t = true ->
  minSize <= crop_width (resizeCrop t sc a dx dy) /\
  heightFloor a <= crop_height (resizeCrop t sc a dx dy).
Proof.
  intro Ht.
  destruct t; try discriminate Ht; destruct a;
    unfold resizeCrop; cbv [typeName aspectLabel heightFloor]; eval_strings;
    cbv [negb orb];
    repeat match goal with
    | |- context [Qltb ?u ?v] =>
        let E := fresh "E" in
        destruct (Qltb u v) eqn:E;
        [apply Qltb_true in E | apply Qltb_false in E]
    end; simpl; unfold minSize in *; divide_by_literals; split; lra.
Qed.

(** X6.  Whatever the user does, in whatever ratio mode, starting from a
    freshly mounted editor, the crop rectangle is at least 0.05 wide and
    at least 0.028 high.  In exact arithmetic the height stays at or
    above 0.05 divided by the largest ratio, 16:9, which is 0.028125;
    the bound stated leaves room for the rounding of the source's
    arithmetic, which can end a hair below that quotient. *)
Theorem ui_crop_size_floor (env : Env) (file : File) (evs : list Event) :
  let c := crop (uiRun env evs (initialState file)) in
  0.05 <= crop_width c /\ 0.028 <= crop_height c.
Proof.
  set (big := fun c : Crop => 0.05 <= crop_width c /\ 0.028125 <= crop_height c).
  set (P := fun s : State =>
              big (crop s) /\
              forall ci, cropInteraction s = Some ci -> big (startCrop ci)).
  assert (A : P (uiRun env evs (initialState file))).
  { assert (D : big defaultCrop) by (unfold big; simpl; split; lra).
    assert (N : forall ci a dx dy, big (startCrop ci) -> big (nextCrop ci a dx dy)).
    { intros ci a dx dy Hci. unfold nextCrop.
      apply boundaryChecks_floor; try lra.
      - rewrite startsWith_resize.
        destruct (isResize (ci_type ci)) eqn:E.
        + apply (resizeCrop_floor _ (startCrop ci) a dx dy E).
        + destruct (ci_type ci); try discriminate E. eval_strings. apply Hci.
      - rewrite startsWith_resize.
        destruct (isResize (ci_type ci)) eqn:E.
        + pose proof (resizeCrop_floor _ (startCrop ci) a dx dy E) as [_ H].
          destruct a; unfold heightFloor in H; lra.
        + destruct (ci_type ci); try discriminate E. eval_strings. apply Hci. }
    apply (uiRun_invariant env P (fun _ => True)); [|apply Forall_True|].
    - intros s ev _ (Hbig & Hstart). unfold P.
      step_cases env s ev; open_handlers; simpl;
        (split;
         [first [assumption | exact D | apply N; apply Hstart; reflexivity]
         |first [assumption | discriminate
                | intros ci Hci; apply Hstart; congruence
                | intros ci Hci; inversion Hci; simpl; exact Hbig]]).
    - unfold P. simpl. split; [exact D|discriminate]. }
  destruct A as [[Hw Hh] _]. simpl. split; [exact Hw|lra].
Qed.

(** X7.  With a fixed ratio selected, the rectangle a resize event sets
    does not depend on the pointer's vertical position, for any of the
    eight handles: the height is always recomputed from the width, and
    the width follows the horizontal displacement only. *)
Theorem fixed_ratio_ignores_dy (ci : CropInteraction) (a : AspectRatio)
    (dx dy1 dy2 : Q) :
  isResize (ci_type ci) = true ->
  a <> Free ->
  nextCrop ci a dx dy1 = nextCrop ci a dx dy2.
Proof.
  intros Ht Ha. unfold nextCrop. rewrite startsWith_resize, Ht. f_equal.
  destruct (ci_type ci); try discriminate Ht; destruct a; try congruence;
    unfold resizeCrop; cbv [typeName aspectLabel]; eval_strings;
    cbv [negb orb];
    repeat match goal with
    | |- context [Qltb ?u ?v] => destruct (Qltb u v)
    end; reflexivity.
Qed.

Lemma fixed_ratio_ignores_dy_witness :
  nextCrop (mkInteraction resize_t 0.5 0.1 defaultCrop) Ratio_4_3 0 0.3
  = nextCrop (mkInteraction resize_t 0.5 0.1 defaultCrop) Ratio_4_3 0 (-0.05).
Proof.
  apply (fixed_ratio_ignores_dy (mkInteraction resize_t 0.5 0.1 defaultCrop) Ratio_4_3).
  - reflexivity.
  - discriminate.
Defined.



(** X9.  In free-ratio mode, pressing the crop body or a handle and then
    receiving a pointer move at the very same position leaves a crop
    rectangle that is inside the image and has at least the minimum size
    where it was. *)
Theorem press_and_still_move (dom : Dom) (e : MouseEvent) (t : CropType) (s : State)
    (imageRect0 containerRect0 : DOMRect) :
  imageRect dom = Some imageRect0 ->
  containerRect dom = Some containerRect0 ->
  button e = 0%Z ->
  aspectRatio s = Free ->
  withinImage (crop s) ->
  atLeastMinSize (crop s) ->
  let c := crop (handleCropMouseMove dom e (handleCropMouseDown dom e t s)) in
  crop_x c == crop_x (crop s) /\ crop_y c == crop_y (crop s) /\
  crop_width c == crop_width (crop s) /\ crop_height c == crop_height (crop s).
Proof.
  intros Hir Hcr Hb Hfree (Hx & Hy & Hxw & Hyh) (Hw & Hh).
  unfold handleCropMouseDown, handleCropMouseMove. rewrite Hb, Hir, Hcr.
  cbn [Z.eqb negb cropInteraction setCropInteraction aspectRatio crop setCrop
       startX startY].
  rewrite Hfree.
  set (px := (clientX e - rect_left imageRect0) / rect_width imageRect0).
  set (py := (clientY e - rect_top imageRect0) / rect_height imageRect0).
  assert (Ex : px - px == 0) by ring.
  assert (Ey : py - py == 0) by ring.
  set (dx := px - px) in *. set (dy := py - py) in *.
  unfold nextCrop. cbn [ci_type startCrop]. rewrite startsWith_resize.
  unfold minSize in *.
  destruct t; cbn [isResize];
    unfold resizeCrop, moveCrop, boundaryChecks;
    cbv [typeName aspectLabel]; eval_strings; cbv [negb orb];
    repeat match goal with
    | |- context [Qltb ?u ?v] =>
        let E := fresh "E" in
        destruct (Qltb u v) eqn:E;
        [apply Qltb_true in E | apply Qltb_false in E]
    end; cbn [crop_x crop_y crop_width crop_height];
    unfold minSize in *; repeat split; minmax_cases.
Qed.

Lemma press_and_still_move_witness :
  let c := crop (handleCropMouseMove sampleDom (pointerAt 900 820)
                   (handleCropMouseDown sampleDom (pointerAt 900 820) resize_br
                      croppingState)) in
  crop_x c == 0.1 /\ crop_y c == 0.1 /\ crop_width c == 0.8 /\ crop_height c == 0.8.
Proof.
  apply (press_and_still_move sampleDom (pointerAt 900 820) resize_br croppingState
           (mkRect 0 100 1000 800) (mkRect 0 0 1000 1000)
           eq_refl eq_refl eq_refl eq_refl).
  - vm_compute. repeat split; discriminate.
  - vm_compute. split; discriminate.
Defined.

(** ** More on rotation, pan and zoom *)

(** One quarter turn anticlockwise on an angle in [0, 360). *)
Lemma quarter_turn_back (r : Z) :
  (0 <= r < 360)%Z ->
  Z.rem (r + -90 + 360) 360 = (if (r <? 90)%Z then r + 270 else r - 90)%Z.
Proof.
  intro H. rewrite Z.rem_mod_nonneg by lia.
  destruct (Z.ltb_spec r 90).
  - symmetry. apply Z.mod_unique with (q := 0%Z); lia.
  - symmetry. apply Z.mod_unique with (q := 1%Z); lia.
Qed.

(** X10.  From an angle in [0, 360), the two rotate buttons undo each
    other: rotating left then right, or right then left, gives back the
    starting state. *)
Theorem rotate_left_right_inverse (s : State) :
  (0 <= rotation s < 360)%Z ->
  handleRotate 90 (handleRotate (-90) s) = s /\
  handleRotate (-90) (handleRotate 90 s) = s.
Proof.
  intro H. destruct s as [f p l er ed sf r b sh sc po pa cr c ci ar].
  simpl in H. unfold handleRotate, setRotation; simpl. split; f_equal.
  - rewrite (quarter_turn_back r) by lia.
    destruct (Z.ltb_spec r 90).
    + rewrite (quarter_turn (r + 270)) by lia.
      destruct (Z.ltb_spec (r + 270) 270); lia.
    + rewrite (quarter_turn (r - 90)) by lia.
      destruct (Z.ltb_spec (r - 90) 270); lia.
  - rewrite (quarter_turn r) by lia.
    destruct (Z.ltb_spec r 270).
    + rewrite (quarter_turn_back (r + 90)) by lia.
      destruct (Z.ltb_spec (r + 90) 90); lia.
    + rewrite (quarter_turn_back (r - 270)) by lia.
      destruct (Z.ltb_spec (r - 270) 90); lia.
Qed.

Lemma rotate_left_right_inverse_witness :
  handleRotate 90 (handleRotate (-90) (initialState sampleFile))
  = initialState sampleFile.
Proof.
  exact (proj1 (rotate_left_right_inverse (initialState sampleFile)
                  ltac:(vm_compute; split; [discriminate | reflexivity]))).
Defined.

(** X12.  The zoom buttons change the scale only, not the offset or
    anything else.  With the scale in [0.5, 5], where every reachable
    state has it, both buttons leave it there; a click on zoom in never
    lowers it and raises it unless it is 5 already, a click on zoom out
    never raises it and lowers it unless it is 0.5 already. *)
Theorem zoom_buttons_direction (direction : ZoomDirection) (s : State) :
  0.5 <= scale s ->
  scale s <= 5 ->
  let s' := handleZoomAction direction s in
  s' = setScale (scale s') s /\
  0.5 <= scale s' /\ scale s' <= 5 /\
  match direction with
  | zoom_in => scale s <= scale s' /\ (scale s < 5 -> scale s < scale s')
  | zoom_out => scale s' <= scale s /\ (0.5 < scale s -> scale s' < scale s)
  end.
Proof.
  intros Hlo Hhi. unfold handleZoomAction.
  cbn [scale setScale].
  split; [destruct s; reflexivity|].
  destruct direction; divide_by_literals;
    (split; [minmax_cases|]); (split; [minmax_cases|]);
    (split; [minmax_cases | intro H; minmax_cases]).
Qed.

Lemma zoom_buttons_direction_witness :
  let s := initialState sampleFile in
  let s' := handleZoomAction zoom_in s in
  s' = setScale (scale s') s /\
  0.5 <= scale s' /\ scale s' <= 5 /\
  scale s <= scale s' /\ (scale s < 5 -> scale s < scale s').
Proof.
  apply (zoom_buttons_direction zoom_in (initialState sampleFile));
    vm_compute; discriminate.
Defined.

(** While panning outside crop mode, a sequence of pointer moves adds the
    reported movements to the offset, one after the other, and changes
    nothing else. *)
Lemma pan_moves (env : Env) (dom : Dom) (moves : list MouseEvent) (s : State) :
  isCropping s = false ->
  isPanning s = true ->
  let s' := uiRun env (map (ContainerMouseMove dom) moves) s in
  pos_x (position s')
  = fold_left (fun x e => x + movementX e) moves (pos_x (position s)) /\
  pos_y (position s')
  = fold_left (fun y e => y + movementY e) moves (pos_y (position s)) /\
  s' = setPosition (position s') s.
Proof.
  revert s. induction moves as [|e moves IH]; intros s Hc Hp.
  - simpl. repeat split. destruct s; reflexivity.
  - unfold uiRun in *. simpl map. simpl fold_left.
    rewrite Hc. unfold handleMouseMove. rewrite Hp. cbn [negb].
    set (s1 := setPosition _ s).
    destruct (IH s1 Hc Hp) as (Ex & Ey & Es).
    cbv zeta. split; [|split].
    + rewrite Ex. subst s1. reflexivity.
    + rewrite Ey. subst s1. reflexivity.
    + rewrite Es at 1. subst s1. destruct s; reflexivity.
Qed.

(** X13.  Outside crop mode, pressing the primary button on the container
    and moving the pointer adds the reported movements to the offset,
    one after the other in the order of the events, and changes nothing
    but the offset and the panning flag; in crop mode the same press and
    moves leave the offset alone. *)
Theorem pan_drag (env : Env) (dom : Dom) (press : MouseEvent)
    (moves : list MouseEvent) (s : State) :
  button press = 0%Z ->
  let s' := uiRun env (ContainerMouseDown press :: map (ContainerMouseMove dom) moves) s in
  (isCropping s = false ->
   pos_x (position s')
   = fold_left (fun x e => x + movementX e) moves (pos_x (position s)) /\
   pos_y (position s')
   = fold_left (fun y e => y + movementY e) moves (pos_y (position s)) /\
   s' = setPosition (position s') (setIsPanning true s)) /\
  (isCropping s = true -> position s' = position s).
Proof.
  intros Hb s'. split.
  - intro Hc. subst s'. unfold uiRun. simpl fold_left.
    unfold handleMouseDown. rewrite Hc, Hb. cbn [Z.eqb negb orb].
    apply (pan_moves env dom moves (setIsPanning true s)).
    + exact Hc.
    + reflexivity.
  - intro Hc. subst s'. unfold uiRun. simpl fold_left.
    unfold handleMouseDown. rewrite Hc. cbn [orb].
    clear Hb. revert s Hc. induction moves as [|e moves IH]; intros s Hc.
    + reflexivity.
    + simpl. rewrite Hc.
      assert (Hc' : isCropping (handleCropMouseMove dom e s) = true)
        by (unfold handleCropMouseMove; open_handlers; simpl; exact Hc).
      rewrite (IH _ Hc').
      unfold handleCropMouseMove; open_handlers; reflexivity.
Qed.

Lemma pan_drag_witness :
  let s' := uiRun sampleEnv
              (ContainerMouseDown (pointerAt 500 500)
               :: map (ContainerMouseMove sampleDom) sampleMoves)
              (initialState sampleFile) in
  pos_x (position s') = 0 + 10 + 20 + -5 /\
  pos_y (position s') = 0 + 5 + -5 + 20.
Proof.
  destruct (pan_drag sampleEnv sampleDom (pointerAt 500 500) sampleMoves
              (initialState sampleFile) eq_refl) as [H _].
  destruct (H eq_refl) as (Hx & Hy & _).
  split; [exact Hx | exact Hy].
Defined.

(** ** Filters *)

(** The composite filter does not tell an empty preset style from
    ['none']: both are dropped. *)
Lemma fullFilter_dropped (x y : string) (blurValue sharpenValue : Z) :
  keepFilter x = false -> keepFilter y = false ->
  fullFilter x blurValue sharpenValue = fullFilter y blurValue sharpenValue.
Proof.
  intros Hx Hy. unfold fullFilter. cbn [filter]. rewrite Hx, Hy. reflexivity.
Qed.

(** X14.  What is previewed is what is submitted: in every state the
    filter of the on-screen preview ([combinedFilterStyle]) is the
    composite filter that [handleSubmit] passes to the raster step for
    the same state, with ['none'] standing for the empty composite. *)
Theorem preview_filter_is_baked_filter (s : State) :
  let baked := fullFilter (filterStyleOf s) (blur s) (sharpen s) in
  combinedFilterStyle s = if JS.truthy baked then baked else "none".
Proof.
  unfold combinedFilterStyle, filterStyleOf.
  destruct (activeFilter s) as [f|]; [|reflexivity].
  destruct (snd f) as [|c style] eqn:E; [|reflexivity].
  cbn [JS.truthy].
  rewrite (fullFilter_dropped "none" "" (blur s) (sharpen s)); reflexivity.
Qed.

(** X15.  In every state, the submission sends the original file
    unmodified exactly when the preview shows the image unrotated and
    with no filter: [transformActive] is false if and only if the
    preview filter is ['none'] and the rotation is 0. *)
Theorem untransformed_iff_plain_preview (s : State) :
  transformActive s = false <->
  combinedFilterStyle s = "none" /\ rotation s = 0%Z.
Proof.
  unfold transformActive, combinedFilterStyle, filterStyleOf, activeFilter,
    fullFilter, blurFilter, sharpenFilter.
  cbn [find filters fst snd].
  repeat match goal with
  | |- context [String.eqb ?a (selectedFilter s)] =>
      destruct (String.eqb a (selectedFilter s))
  end;
  destruct (0 <? blur s)%Z; destruct (0 <? sharpen s)%Z;
  destruct (Z.eqb_spec (rotation s) 0);
  simpl; split; intro H;
  first [ discriminate H
        | reflexivity
        | split; [reflexivity | assumption]
        | exfalso; destruct H; first [discriminate | congruence] ].
Qed.

(** ** More on submission *)

(** What the adapter does once the credential is there: it sends at most
    one request, built from its arguments, and fulfils only after having
    sent it. *)
Lemma editImageWithGemini_requests (env : Env) (f : File) (p : string) :
  let '(result, sent) := editImageWithGemini env f p in
  (sent = [] \/
   exists key data,
     sent = [mkRequest key "gemini-2.5-flash-image-preview" data (file_type f) p
               [IMAGE; TEXT]]) /\
  (forall edited, result = Fulfilled edited -> sent <> []).
Proof.
  unfold editImageWithGemini, fileToBase64.
  destruct (credentialMissing env);
    [split; [left; reflexivity | discriminate]|].
  destruct (readAsDataURL env f);
    [|split; [left; reflexivity | discriminate]].
  match goal with
  | |- context [generateContent env ?q] => destruct (generateContent env q) as [resp|er|]
  end;
    [destruct (readResponse env resp)| |];
    (split; [right; eexists; eexists; reflexivity | intros; discriminate]).
Qed.

(** X16.  When an accepted submission succeeds, the handler runs to its
    end and leaves the state it started from with the result on display
    and no error message (the prompt stays); the adapter was called
    once and exactly one request was sent. *)
Theorem successful_submission (env : Env) (s : State) (edited : EditedImage) :
  submitRejected s = false ->
  outcome (tryBlock env s) = Fulfilled edited ->
  let r := handleSubmit env s in
  completed r = true /\
  final r = setError None (setEditedImage (Some edited) s) /\
  isLoading (final r) = false /\
  (exists f, adapterCallsOf r = [(f, prompt s)]) /\
  (exists q, requestsOf r = [q]).
Proof.
  intros G Hok r.
  destruct (proj1 (submitRejected_false s) G) as [Hidle _].
  subst r. unfold handleSubmit, adapterCallsOf, requestsOf. rewrite G.
  cbn [final completed attempt]. rewrite Hok. cbn [settle isSettled].
  split; [reflexivity|].
  split; [destruct s; simpl in *; subst; reflexivity|].
  split; [reflexivity|].
  revert Hok. unfold tryBlock.
  destruct (transformActive s).
  - destruct (applyTransformationsAndGetFile env (imageFile s) (filterStyleOf s)
                (rotation s) (blur s) (sharpen s)) as [f|err|];
      try (cbn; discriminate).
    pose proof (editImageWithGemini_requests env f (prompt s)) as H.
    destruct (editImageWithGemini env f (prompt s)) as [result sent].
    cbn. intro Hok. destruct H as [[H|(k & d & H)] Hne].
    + exfalso. apply (Hne edited Hok). exact H.
    + split; eexists; [reflexivity | exact H].
  - pose proof (editImageWithGemini_requests env (imageFile s) (prompt s)) as H.
    destruct (editImageWithGemini env (imageFile s) (prompt s)) as [result sent].
    cbn. intro Hok. destruct H as [[H|(k & d & H)] Hne].
    + exfalso. apply (Hne edited Hok). exact H.
    + split; eexists; [reflexivity | exact H].
Qed.

Lemma successful_submission_witness :
  let r := handleSubmit sampleEnv promptedState in
  final r
  = setError None
      (setEditedImage
         (Some (mkEdited "data:image/png;base64,iVBORw0KGgo=" "A hat was added."))
         promptedState) /\
  isLoading (final r) = false.
Proof.
  destruct (successful_submission sampleEnv promptedState
              (mkEdited "data:image/png;base64,iVBORw0KGgo=" "A hat was added.")
              eq_refl eq_refl) as (_ & Hf & Hl & _).
  exact (conj Hf Hl).
Defined.

(** X17.  Whatever its outcome (turned away, failed, succeeded, or still
    waiting), [handleSubmit] leaves the working image, the prompt, the
    transform controls, the view, the crop state and both mode flags as
    they were: it writes [isLoading], [error] and [editedImage] only. *)
Theorem handleSubmit_frame (env : Env) (s : State) :
  let s' := final (handleSubmit env s) in
  imageFile s' = imageFile s /\ prompt s' = prompt s /\
  selectedFilter s' = selectedFilter s /\ rotation s' = rotation s /\
  blur s' = blur s /\ sharpen s' = sharpen s /\
  scale s' = scale s /\ position s' = position s /\
  isPanning s' = isPanning s /\ isCropping s' = isCropping s /\
  crop s' = crop s /\ cropInteraction s' = cropInteraction s /\
  aspectRatio s' = aspectRatio s.
Proof.
  destruct (handleSubmit_final_shape env s) as [H|(l & er & ed & H)];
    cbv zeta; rewrite H; repeat split; reflexivity.
Qed.

(** Once [isLoading] is set, no event clears it: only the end of a
    submission does. *)
Lemma loading_step (env : Env) (s : State) (ev : Event) :
  isLoading s = true -> isLoading (uiStep env s ev) = true.
Proof.
  intro H.
  assert (G : final (handleSubmit env s) = s).
  { unfold handleSubmit, submitRejected. rewrite H, orb_true_r. reflexivity. }
  destruct ev; cbn [uiStep]; try rewrite H; try rewrite G; try exact H;
    try (destruct (handleApplyCrop_shape env s) as [Hs|(f & Hs)]; rewrite Hs);
    open_handlers; simpl; exact H.
Qed.

(** X18.  When the working file cannot be decoded and a transform is
    selected, an accepted submission never ends: the raster step waits
    for an image that never loads and has no error path.  Nothing is
    sent, the handler stays suspended with [isLoading] set, and
    afterwards no sequence of events clears the flag, so every later
    submission is turned away. *)
Theorem undecodable_file_blocks_editor (env : Env) (s : State) :
  submitRejected s = false ->
  transformActive s = true ->
  file_image (imageFile s) = None ->
  let r := handleSubmit env s in
  completed r = false /\
  adapterCallsOf r = [] /\ requestsOf r = [] /\
  error (final r) = None /\
  forall env' evs,
    isLoading (uiRun env' evs (final r)) = true /\
    attempt (handleSubmit env' (uiRun env' evs (final r))) = None.
Proof.
  intros G Ht Hf r. subst r.
  unfold handleSubmit, adapterCallsOf, requestsOf. rewrite G.
  cbn [final completed attempt].
  unfold tryBlock. rewrite Ht.
  unfold applyTransformationsAndGetFile. rewrite Hf.
  cbn [outcome settle isSettled adapterCalls requests].
  repeat split; try reflexivity.
  - apply (uiRun_invariant env' (fun s => isLoading s = true) (fun _ => True)).
    + intros s0 ev _ H. apply loading_step, H.
    + apply Forall_True.
    + reflexivity.
  - assert (L : isLoading
                  (uiRun env' evs
                     (setEditedImage None (setError None (setIsLoading true s))))
                = true).
    { apply (uiRun_invariant env' (fun s => isLoading s = true) (fun _ => True)).
      - intros s0 ev _ H. apply loading_step, H.
      - apply Forall_True.
      - reflexivity. }
    unfold handleSubmit, submitRejected. rewrite L, orb_true_r. reflexivity.
Qed.

Lemma undecodable_file_blocks_editor_witness :
  completed (handleSubmit sampleEnv brokenRotatedState) = false /\
  isLoading
    (uiRun sampleEnv [AlertClose; PromptChange "Try again"; FormSubmit]
       (final (handleSubmit sampleEnv brokenRotatedState))) = true.
Proof.
  destruct (undecodable_file_blocks_editor sampleEnv brokenRotatedState
              eq_refl eq_refl eq_refl) as (Hc & _ & _ & _ & H).
  split; [exact Hc|].
  exact (proj1 (H sampleEnv [AlertClose; PromptChange "Try again"; FormSubmit])).
Defined.

(** X19.  A run of [handleSubmit] sends at most one request.  The request
    names the model, asks for image and text, and carries the prompt
    exactly as typed (not trimmed) and the MIME type of the file sent:
    image/png when a transform was baked in, the type of the working
    file otherwise. *)
Theorem request_shape (env : Env) (s : State) (q : Request) :
  In q (requestsOf (handleSubmit env s)) ->
  requestsOf (handleSubmit env s) = [q] /\
  req_text q = prompt s /\
  req_model q = "gemini-2.5-flash-image-preview" /\
  req_responseModalities q = [IMAGE; TEXT] /\
  req_mimeType q
  = (if transformActive s then "image/png" else file_type (imageFile s)).
Proof.
  unfold handleSubmit, requestsOf.
  destruct (submitRejected s); cbn [attempt]; [intros []|].
  unfold tryBlock.
  destruct (transformActive s).
  - unfold applyTransformationsAndGetFile.
    destruct (file_image (imageFile s)); [|intros []].
    destruct (getContext2d env); cbn [negb]; [|intros []].
    destruct (toBlobSucceeds env); cbn [negb]; [|intros []].
    match goal with
    | |- context [editImageWithGemini env ?f ?p] =>
        pose proof (editImageWithGemini_requests env f p) as H;
        destruct (editImageWithGemini env f p) as [result sent]
    end.
    cbn [requests]. destruct H as [[H|(k & d & H)] _]; rewrite H.
    + intros [].
    + intros [Hq|[]]. subst q. repeat split; reflexivity.
  - pose proof (editImageWithGemini_requests env (imageFile s) (prompt s)) as H.
    destruct (editImageWithGemini env (imageFile s) (prompt s)) as [result sent].
    cbn [requests]. destruct H as [[H|(k & d & H)] _]; rewrite H.
    + intros [].
    + intros [Hq|[]]. subst q. repeat split; reflexivity.
Qed.

Lemma request_shape_witness :
  let q := mkRequest "secret" "gemini-2.5-flash-image-preview"
             (Some "/9j/4AAQSkZJRg==") "image/png" "  Add a hat " [IMAGE; TEXT] in
  requestsOf (handleSubmit sampleEnv (setPrompt "  Add a hat " grayscaleBlurState)) = [q] /\
  req_text q = "  Add a hat " /\ req_mimeType q = "image/png".
Proof.
  destruct (request_shape sampleEnv (setPrompt "  Add a hat " grayscaleBlurState)
              (mkRequest "secret" "gemini-2.5-flash-image-preview"
                 (Some "/9j/4AAQSkZJRg==") "image/png" "  Add a hat " [IMAGE; TEXT])
              (or_introl eq_refl)) as (H1 & H2 & _ & _ & H3).
  exact (conj H1 (conj H2 H3)).
Defined.

(** ** More on the outbound adapter *)

(** Parts without inline data leave the image URL of the scan alone. *)
Lemma scan_no_image (parts : list Part) (acc : string * string) :
  forallb noInlineData parts = true ->
  fst (fold_left scanPart parts acc) = fst acc.
Proof.
  revert acc. induction parts as [|p parts IH]; intros acc H; [reflexivity|].
  simpl in H. apply andb_prop in H. destruct H as [Hp Hrest].
  simpl. rewrite (IH _ Hrest).
  unfold scanPart, noInlineData in *.
  destruct (part_inlineData p); [discriminate Hp|].
  destruct (part_text p) as [t|]; [destruct (JS.truthy t)|]; reflexivity.
Qed.

(** Parts that contribute no text leave the text of the scan alone. *)
Lemma scan_no_text (parts : list Part) (acc : string * string) :
  forallb noText parts = true ->
  snd (fold_left scanPart parts acc) = snd acc.
Proof.
  revert acc. induction parts as [|p parts IH]; intros acc H; [reflexivity|].
  simpl in H. apply andb_prop in H. destruct H as [Hp Hrest].
  simpl. rewrite (IH _ Hrest).
  unfold scanPart, noText in *.
  destruct (part_inlineData p); [reflexivity|].
  destruct (part_text p) as [t|]; [|reflexivity].
  destruct (JS.truthy t); [discriminate Hp | reflexivity].
Qed.

(** X20.  With the credential present and the file read, when the service
    answers without an image (no candidates, or a first candidate whose
    parts carry no inline data), the adapter rejects with the message
    "Failed to edit image: API did not return an image. The model may
    have refused the request.", after exactly one request. *)
Theorem imageless_response_fails (env : Env) (f : File) (p url : string)
    (response : Response) :
  credentialMissing env = false ->
  readAsDataURL env f = Some url ->
  (forall q, generateContent env q = Fulfilled response) ->
  imageless response ->
  exists q,
    editImageWithGemini env f p
    = (Rejected
         (ErrorObject
            "Failed to edit image: API did not return an image. The model may have refused the request."),
       [q]).
Proof.
  intros Hkey Hread Hgen Himg.
  unfold editImageWithGemini, fileToBase64. rewrite Hkey, Hread, Hgen.
  eexists.
  assert (R : readResponse env response
              = inr (ErrorObject
                       "API did not return an image. The model may have refused the request.")).
  { unfold readResponse, imageless in *.
    destruct (candidates response) as [[|first rest]|]; try reflexivity.
    destruct Himg as (parts & Hparts & Hno). rewrite Hparts.
    pose proof (scan_no_image parts ("", "No text response from model.") Hno) as E.
    destruct (fold_left scanPart parts ("", "No text response from model."))
      as [imageUrl0 text0].
    simpl in E. subst imageUrl0. reflexivity. }
  rewrite R. reflexivity.
Qed.

Lemma imageless_response_fails_witness :
  exists q,
    editImageWithGemini refusingEnv sampleFile "Add a hat"
    = (Rejected
         (ErrorObject
            "Failed to edit image: API did not return an image. The model may have refused the request."),
       [q]).
Proof.
  apply (imageless_response_fails refusingEnv sampleFile "Add a hat"
           "data:image/jpeg;base64,/9j/4AAQSkZJRg=="
           (mkResponse
              (Some [mkCandidate (Some [mkPart None (Some "I cannot edit this image.")])]))).
  - reflexivity.
  - reflexivity.
  - intro q. reflexivity.
  - eexists. split; reflexivity.
Defined.

(** X21.  With the credential present and the file read, when the first
    candidate of the answer carries inline data, the adapter fulfils
    after exactly one request, and the image URL of the result is built
    from the last part with inline data (its MIME type and its data); the
    text is the default "No text response from model." when no part
    contributes a text. *)
Theorem last_image_wins (env : Env) (f : File) (p url : string)
    (before after : list Part) (part : Part) (d : InlineData)
    (others : list Candidate) :
  credentialMissing env = false ->
  readAsDataURL env f = Some url ->
  (forall q,
     generateContent env q
     = Fulfilled (mkResponse
                    (Some (mkCandidate (Some (before ++ part :: after)%list) :: others)))) ->
  part_inlineData part = Some d ->
  forallb noInlineData after = true ->
  exists q t,
    editImageWithGemini env f p = (Fulfilled (mkEdited (dataUrl d) t), [q]) /\
    (forallb noText (before ++ part :: after)%list = true ->
     t = "No text response from model.").
Proof.
  intros Hkey Hread Hgen Hpart Hafter.
  unfold editImageWithGemini, fileToBase64. rewrite Hkey, Hread, Hgen.
  unfold readResponse. cbn [candidates candidate_parts].
  set (start := ("", "No text response from model.")).
  assert (E : fst (fold_left scanPart (before ++ part :: after)%list start) = dataUrl d).
  { rewrite fold_left_app. simpl fold_left.
    rewrite (scan_no_image after _ Hafter).
    unfold scanPart at 1. rewrite Hpart. reflexivity. }
  assert (T : forallb noText (before ++ part :: after)%list = true ->
              snd (fold_left scanPart (before ++ part :: after)%list start)
              = "No text response from model.").
  { intro H. rewrite (scan_no_text _ start H). reflexivity. }
  destruct (fold_left scanPart (before ++ part :: after)%list start) as [imageUrl0 text0].
  simpl in E, T. subst imageUrl0.
  unfold dataUrl at 1. cbn [JS.truthy append negb].
  eexists. exists text0. split; [reflexivity | exact T].
Qed.

Lemma last_image_wins_witness :
  exists q t,
    editImageWithGemini twoImagesEnv sampleFile "Add a hat"
    = (Fulfilled (mkEdited "data:image/webp;base64,c2Vjb25k" t), [q]).
Proof.
  destruct (last_image_wins twoImagesEnv sampleFile "Add a hat"
              "data:image/jpeg;base64,/9j/4AAQSkZJRg=="
              [mkPart (Some (mkInlineData "Zmlyc3Q=" "image/png")) None;
               mkPart None (Some "Two variants.")]
              []
              (mkPart (Some (mkInlineData "c2Vjb25k" "image/webp")) None)
              (mkInlineData "c2Vjb25k" "image/webp") []
              eq_refl eq_refl (fun _ => eq_refl) eq_refl eq_refl)
    as (q & t & H & _).
  exists q, t. exact H.
Defined.

(** X22.  With the credential present and the file read, when the call to
    the service fails, the adapter rejects, after exactly one request,
    with an [Error] whose message is "Failed to edit image: " followed
    by the message of the failure, or by "An unknown error occurred."
    when what was thrown is not an [Error]; an accepted submission with
    no transform selected ends with that message on display. *)
Theorem service_failure_message (env : Env) (f : File) (p url : string)
    (failure : Thrown) :
  credentialMissing env = false ->
  readAsDataURL env f = Some url ->
  (forall q, generateContent env q = Rejected failure) ->
  let shown :=
    "Failed to edit image: "
    ++ match failure with
       | ErrorObject message => message
       | OtherValue => "An unknown error occurred."
       end in
  (exists q, editImageWithGemini env f p = (Rejected (ErrorObject shown), [q])) /\
  (forall s,
     submitRejected s = false -> transformActive s = false ->
     imageFile s = f -> prompt s = p ->
     error (final (handleSubmit env s)) = Some shown).
Proof.
  intros Hkey Hread Hgen shown.
  assert (A : exists q,
             editImageWithGemini env f p = (Rejected (ErrorObject shown), [q])).
  { unfold editImageWithGemini, fileToBase64. rewrite Hkey, Hread, Hgen.
    eexists. destruct failure; reflexivity. }
  split; [exact A|].
  intros s G Ht Hf Hp. destruct A as [q A].
  unfold handleSubmit. rewrite G. cbn [final].
  unfold tryBlock. rewrite Ht, Hf, Hp, A. reflexivity.
Qed.

Lemma service_failure_message_witness :
  error (final (handleSubmit offlineEnv promptedState))
  = Some "Failed to edit image: fetch failed".
Proof.
  destruct (service_failure_message offlineEnv sampleFile "Add a hat"
              "data:image/jpeg;base64,/9j/4AAQSkZJRg==" (ErrorObject "fetch failed")
              eq_refl eq_refl (fun _ => eq_refl)) as [_ H].
  exact (H promptedState eq_refl eq_refl eq_refl eq_refl).
Defined.

(** X23.  With the credential present, when the file cannot be read the
    adapter rejects with the reader's error event, which is not an
    [Error], before any request: an accepted submission with no
    transform selected sends nothing and ends with the generic message
    "An unexpected error occurred." on display. *)
Theorem unreadable_file_message (env : Env) (s : State) :
  credentialMissing env = false ->
  readAsDataURL env (imageFile s) = None ->
  submitRejected s = false ->
  transformActive s = false ->
  let r := handleSubmit env s in
  editImageWithGemini env (imageFile s) (prompt s) = (Rejected OtherValue, []) /\
  requestsOf r = [] /\
  error (final r) = Some "An unexpected error occurred." /\
  isLoading (final r) = false.
Proof.
  intros Hkey Hread G Ht r.
  assert (A : editImageWithGemini env (imageFile s) (prompt s)
              = (Rejected OtherValue, [])).
  { unfold editImageWithGemini, fileToBase64. rewrite Hkey, Hread. reflexivity. }
  split; [exact A|].
  subst r. unfold handleSubmit, requestsOf. rewrite G. cbn [final attempt].
  unfold tryBlock. rewrite Ht, A. repeat split; reflexivity.
Qed.

Lemma unreadable_file_message_witness :
  error (final (handleSubmit unreadableEnv promptedState))
  = Some "An unexpected error occurred.".
Proof.
  exact (proj1 (proj2 (proj2 (unreadable_file_message unreadableEnv promptedState
                                eq_refl eq_refl eq_refl eq_refl)))).
Defined.

(** Splitting at a separator that the head does not contain. *)
Lemma split_at_first (sep : ascii) (head rest : string) :
  hasChar sep head = false ->
  JS.split sep (head ++ String sep rest) = head :: JS.split sep rest.
Proof.
  induction head as [|c head IH]; simpl; intro H.
  - rewrite Ascii.eqb_refl. reflexivity.
  - apply orb_false_iff in H. destruct H as [Hc Hrest].
    rewrite Hc, (IH Hrest). reflexivity.
Qed.

Lemma split_no_separator (sep : ascii) (s : string) :
  hasChar sep s = false -> JS.split sep s = [s].
Proof.
  induction s as [|c s IH]; simpl; intro H; [reflexivity|].
  apply orb_false_iff in H. destruct H as [Hc Hrest].
  rewrite Hc, (IH Hrest). reflexivity.
Qed.

(** X24.  [fileToBase64] returns exactly the payload of the data URL the
    reader produced: for a URL made of a header, a comma and a payload,
    neither containing a comma, the promise fulfils with the payload; for
    a reader result without any comma it fulfils with [undefined]. *)
Theorem fileToBase64_payload (env : Env) (f : File) :
  (forall header payload,
     readAsDataURL env f = Some (header ++ "," ++ payload) ->
     hasChar "," header = false ->
     hasChar "," payload = false ->
     fileToBase64 env f = Fulfilled (Some payload)) /\
  (forall result,
     readAsDataURL env f = Some result ->
     hasChar "," result = false ->
     fileToBase64 env f = Fulfilled None).
Proof.
  split.
  - intros header payload Hread Hh Hp. unfold fileToBase64. rewrite Hread.
    change ("," ++ payload) with (String "," payload).
    rewrite (split_at_first "," header payload Hh).
    rewrite (split_no_separator "," payload Hp). reflexivity.
  - intros result Hread Hr. unfold fileToBase64. rewrite Hread.
    rewrite (split_no_separator "," result Hr). reflexivity.
Qed.

Lemma fileToBase64_payload_witness :
  fileToBase64 sampleEnv sampleFile = Fulfilled (Some "/9j/4AAQSkZJRg==").
Proof.
  exact (proj1 (fileToBase64_payload sampleEnv sampleFile)
           "data:image/jpeg;base64" "/9j/4AAQSkZJRg==" eq_refl eq_refl eq_refl).
Defined.

(** ** More on applying the crop and promoting a result *)

(** Decide the bound checks of a pixel copy from the hypotheses. *)
Ltac decide_bounds :=
  repeat match goal with
  | |- context [(?x <=? ?y)%Z] =>
      replace (x <=? y)%Z with true by (symmetry; apply Z.leb_le; lia)
  | |- context [(?x <? ?y)%Z] =>
      replace (x <? y)%Z with true by (symmetry; apply Z.ltb_lt; lia)
  end.

(** X25.  When the crop rectangle falls on pixel boundaries of the
    working image (x, y, width and height times the image size are the
    integers a, b, w, h, inside the image), in a browser that yields a
    canvas context and a blob, [handleApplyCrop] makes the working image
    a PNG file named "cropped-" plus the old name, w by h pixels, whose
    pixel at column i and row j is the source pixel at column a + i and
    row b + j, and leaves crop mode. *)
Theorem apply_crop_aligned (env : Env) (s : State) (image : Raster) (a b w h : Z) :
  file_image (imageFile s) = Some image ->
  crop_x (crop s) * inject_Z (raster_width image) == inject_Z a ->
  crop_y (crop s) * inject_Z (raster_height image) == inject_Z b ->
  crop_width (crop s) * inject_Z (raster_width image) == inject_Z w ->
  crop_height (crop s) * inject_Z (raster_height image) == inject_Z h ->
  (0 <= a)%Z -> (0 <= b)%Z -> (0 <= w < 2 ^ 32)%Z -> (0 <= h < 2 ^ 32)%Z ->
  (a + w <= raster_width image)%Z -> (b + h <= raster_height image)%Z ->
  getContext2d env = true ->
  toBlobSucceeds env = true ->
  let s' := handleApplyCrop env s in
  exists out : Raster,
    imageFile s' = mkFile ("cropped-" ++ file_name (imageFile s)) "image/png" (Some out) /\
    raster_width out = w /\
    raster_height out = h /\
    (forall i j, (0 <= i < w)%Z -> (0 <= j < h)%Z ->
       raster_pixel out i j = raster_pixel image (a + i) (b + j)) /\
    isCropping s' = false.
Proof.
  intros Himg EX EY EW EH Ha Hb Hw Hh Haw Hbh Hctx Hblob s'.
  subst s'. unfold handleApplyCrop. rewrite Himg, Hctx, Hblob. cbn [negb].
  set (cropX := crop_x (crop s) * inject_Z (raster_width image)) in *.
  set (cropY := crop_y (crop s) * inject_Z (raster_height image)) in *.
  set (cropWidth := crop_width (crop s) * inject_Z (raster_width image)) in *.
  set (cropHeight := crop_height (crop s) * inject_Z (raster_height image)) in *.
  destruct (integer_value _ _ EX) as [IX FX].
  destruct (integer_value _ _ EY) as [IY FY].
  destruct (integer_value _ _ EW) as [IW FW].
  destruct (integer_value _ _ EH) as [IH FH].
  assert (UW : toUnsignedLong cropWidth = w)
    by (apply toUnsignedLong_value; assumption).
  assert (UH : toUnsignedLong cropHeight = h)
    by (apply toUnsignedLong_value; assumption).
  eexists. split; [reflexivity|].
  unfold drawImage; cbn [raster_width raster_height raster_pixel].
  split; [exact UW|]. split; [exact UH|]. split; [|reflexivity].
  intros i j Hi Hj.
  rewrite UW, UH, IX, IY, IW, IH, FX, FY, FW, FH.
  rewrite !Qeq_bool_refl.
  change (isInteger 0) with true. change (Qfloor 0) with 0%Z.
  cbn [andb].
  decide_bounds.
  cbn [andb negb]. f_equal; lia.
Qed.

Lemma apply_crop_aligned_witness :
  let s' := handleApplyCrop sampleEnv alignedCropState in
  exists out : Raster,
    imageFile s' = mkFile "cropped-photo.jpg" "image/png" (Some out) /\
    raster_width out = 600%Z /\
    raster_height out = 600%Z /\
    (forall i j, (0 <= i < 600)%Z -> (0 <= j < 600)%Z ->
       raster_pixel out i j = raster_pixel sampleImage (100 + i) (40 + j)) /\
    isCropping s' = false.
Proof.
  apply (apply_crop_aligned sampleEnv alignedCropState sampleImage 100 40 600 600);
    first [ reflexivity
          | vm_compute; reflexivity
          | vm_compute; discriminate
          | vm_compute; split; [discriminate | reflexivity] ].
Defined.

(** X26.  Applying the crop does not bake the pending adjustments in and
    does not keep them: in a browser where the crop succeeds, the result
    is the same whatever the rotation, the selected filter, the blur and
    the sharpen value were, and it has rotation 0, filter "None", blur
    and sharpen 0, an empty prompt, no result on display, the view reset
    and the default crop rectangle. *)
Theorem apply_crop_discards_adjustments (env : Env) (s : State) (image : Raster)
    (r b sh : Z) (flt : string) :
  file_image (imageFile s) = Some image ->
  getContext2d env = true ->
  toBlobSucceeds env = true ->
  let s' := handleApplyCrop env s in
  handleApplyCrop env
    (setRotation r (setSelectedFilter flt (setBlur b (setSharpen sh s)))) = s' /\
  rotation s' = 0%Z /\ selectedFilter s' = "None" /\
  blur s' = 0%Z /\ sharpen s' = 0%Z /\
  prompt s' = "" /\ editedImage s' = None /\ error s' = None /\
  scale s' = 1 /\ position s' = mkPosition 0 0 /\
  crop s' = defaultCrop /\ isCropping s' = false.
Proof.
  intros Himg Hctx Hblob s'. subst s'. unfold handleApplyCrop.
  cbn [imageFile setRotation setSelectedFilter setBlur setSharpen crop].
  rewrite Himg, Hctx, Hblob. cbn [negb].
  repeat split; reflexivity.
Qed.

Lemma apply_crop_discards_adjustments_witness :
  handleApplyCrop sampleEnv alignedCropState
  = handleApplyCrop sampleEnv
      (setCrop (mkCrop 0.1 0.05 0.6 0.75) (setIsCropping true promptedState)) /\
  rotation (handleApplyCrop sampleEnv alignedCropState) = 0%Z.
Proof.
  destruct (apply_crop_discards_adjustments sampleEnv
              (setCrop (mkCrop 0.1 0.05 0.6 0.75) (setIsCropping true promptedState))
              sampleImage 90 3 0 "Sepia" eq_refl eq_refl eq_refl)
    as (H & Hr & _).
  split; [exact H|]. reflexivity.
Defined.

Lemma Qfloor_range (q : Q) (n : Z) :
  0 <= q -> q <= inject_Z n -> (0 <= Qfloor q <= n)%Z.
Proof.
  intros H0 Hn. split.
  - change 0%Z with (Qfloor 0). apply Qfloor_resp_le. exact H0.
  - rewrite <- (Qfloor_Z n). apply Qfloor_resp_le. exact Hn.
Qed.

(** X27.  For a crop rectangle with sides between 0 and 1 on an image
    smaller than 2^32 pixels each way, in a browser where the crop
    succeeds, the new working image is never larger than the source,
    each way. *)
Theorem apply_crop_size (env : Env) (s : State) (image : Raster) :
  file_image (imageFile s) = Some image ->
  getContext2d env = true ->
  toBlobSucceeds env = true ->
  0 <= crop_width (crop s) <= 1 ->
  0 <= crop_height (crop s) <= 1 ->
  (0 <= raster_width image < 2 ^ 32)%Z ->
  (0 <= raster_height image < 2 ^ 32)%Z ->
  exists out : Raster,
    file_image (imageFile (handleApplyCrop env s)) = Some out /\
    (0 <= raster_width out <= raster_width image)%Z /\
    (0 <= raster_height out <= raster_height image)%Z.
Proof.
  intros Himg Hctx Hblob Hw Hh HW HH.
  unfold handleApplyCrop. rewrite Himg, Hctx, Hblob. cbn [negb].
  eexists. split; [reflexivity|].
  unfold drawImage; cbn [raster_width raster_height].
  assert (A : forall c n, 0 <= c <= 1 -> (0 <= n < 2 ^ 32)%Z ->
              toUnsignedLong (c * inject_Z n) = Qfloor (c * inject_Z n) /\
              (0 <= Qfloor (c * inject_Z n) <= n)%Z).
  { intros c n Hc Hn.
    assert (Hn0 : 0 <= inject_Z n)
      by (change 0 with (inject_Z 0); rewrite <- Zle_Qle; lia).
    assert (P0 : 0 <= c * inject_Z n) by nra.
    assert (P1 : c * inject_Z n <= inject_Z n) by nra.
    pose proof (Qfloor_range _ n P0 P1) as R.
    split; [|exact R].
    unfold toUnsignedLong, truncate.
    rewrite (proj2 (Qltb_false (c * inject_Z n) 0) P0).
    apply Z.mod_small. lia. }
  destruct (A _ _ Hw HW) as [E1 R1]. destruct (A _ _ Hh HH) as [E2 R2].
  rewrite E1, E2. repeat split; lia.
Qed.

Lemma apply_crop_size_witness :
  exists out : Raster,
    file_image (imageFile (handleApplyCrop sampleEnv
                             (setCrop (mkCrop 0.1 0.1 0.333 0.05) croppingState)))
    = Some out /\
    (0 <= raster_width out <= 1000)%Z /\
    (0 <= raster_height out <= 800)%Z.
Proof.
  apply (apply_crop_size sampleEnv (setCrop (mkCrop 0.1 0.1 0.333 0.05) croppingState)
           sampleImage eq_refl eq_refl eq_refl);
    vm_compute; split; first [discriminate | reflexivity].
Defined.

(** X28.  With a result on display, using it as the new original fetches
    its URL: when the fetch yields a blob, the working image becomes a
    file named "edited-" plus the time stamp plus ".png", of the blob's
    own type and content, the session is reset (no result, empty prompt,
    rotation 0, no filter, default crop, crop mode off), and a second
    click has nothing to promote; when the fetch fails with an [Error],
    the message "Error setting new image: " plus its message is shown and
    the working image and the result stay. *)
Theorem use_as_original (fetchBlob : string -> Settled Blob) (now : Z) (s : State)
    (edited : EditedImage) :
  editedImage s = Some edited ->
  JS.truthy (imageUrl edited) = true ->
  let s' := handleUseAsOriginal fetchBlob now s in
  (forall blob,
     fetchBlob (imageUrl edited) = Fulfilled blob ->
     imageFile s'
     = mkFile ("edited-" ++ JS.toString now ++ ".png") (blob_type blob) (blob_image blob) /\
     editedImage s' = None /\ prompt s' = "" /\ error s' = None /\
     rotation s' = 0%Z /\ selectedFilter s' = "None" /\
     blur s' = 0%Z /\ sharpen s' = 0%Z /\
     crop s' = defaultCrop /\ isCropping s' = false /\
     forall fetchBlob' now', handleUseAsOriginal fetchBlob' now' s' = s') /\
  (forall message,
     fetchBlob (imageUrl edited) = Rejected (ErrorObject message) ->
     s' = setError (Some ("Error setting new image: " ++ message)) s /\
     imageFile s' = imageFile s /\ editedImage s' = Some edited).
Proof.
  intros Hed Hurl s'. subst s'. unfold handleUseAsOriginal.
  rewrite Hed, Hurl. cbn [negb]. split.
  - intros blob Hfetch. rewrite Hfetch. repeat split; reflexivity.
  - intros message Hfetch. rewrite Hfetch.
    repeat split; try reflexivity. simpl. exact Hed.
Qed.

Lemma use_as_original_witness :
  imageFile (handleUseAsOriginal sampleFetch 1700000000000 resubmitState)
  = mkFile "edited-1700000000000.png" "image/webp" (Some sampleImage) /\
  handleUseAsOriginal failingFetch 1700000000000 resubmitState
  = setError (Some "Error setting new image: Failed to fetch") resubmitState.
Proof.
  split.
  - exact (proj1 (proj1 (use_as_original sampleFetch 1700000000000 resubmitState
                           (mkEdited "data:image/png;base64,iVBORw0KGgo=" "A hat was added.")
                           eq_refl eq_refl)
                    (mkBlob "image/webp" (Some sampleImage)) eq_refl)).
  - exact (proj1 (proj2 (use_as_original failingFetch 1700000000000 resubmitState
                           (mkEdited "data:image/png;base64,iVBORw0KGgo=" "A hat was added.")
                           eq_refl eq_refl)
                    "Failed to fetch" eq_refl)).
Defined.
